(** * Snowflake stage file downloader: a shallow embedding

    The development follows [downloader_app/download_files.py]:

    - the string helpers of [get_stage_files] (Python's [str.split],
      [in], [str.lower] and the thousands-separator format);
    - a state-and-exception monad over the world the script runs in
      (the platform behind [os] and the Snowpark session, plus the
      trace of platform calls and Streamlit output);
    - [get_stages_list], [get_stage_files], [download_file_from_stage],
      the download loop of [main] and [main] itself;
    - [download_file_from_stage] once more with the exceptions that
      [except Exception] does not catch (module [Signals]);
    - the properties of the catalog reader and of the batch download.

    Python strings are modelled as Rocq byte strings; [str.lower] is
    the ASCII case mapping, with which Python agrees on ASCII text. *)

From Stdlib Require Import String Ascii List Bool Arith NArith ZArith QArith Lia.
From Stdlib Require Import Permutation.
From Stdlib Require Import DecimalString.
From Stdlib Require DecimalN.
Import ListNotations.
Local Close Scope Q_scope.
Local Open Scope list_scope.
Local Open Scope string_scope.

(* ================================================================= *)
(** ** Python string operations used by the catalog reader *)

Module PyStr.

(** [c in s] for a one-character needle. *)
Fixpoint contains (c : ascii) (s : string) : bool :=
  match s with
  | EmptyString => false
  | String a r => if Ascii.eqb a c then true else contains c r
  end.

(** [s.split(c)] for a one-character separator: never empty, the pieces
    hold no separator, [''.split(c) == ['']]. *)
Fixpoint split (c : ascii) (s : string) : list string :=
  match s with
  | EmptyString => [EmptyString]
  | String a r =>
      if Ascii.eqb a c then EmptyString :: split c r
      else match split c r with
           | [] => [String a EmptyString]
           | piece :: rest => String a piece :: rest
           end
  end.

(** [l[-1]]: the last element, an [IndexError] (here [None]) on [[]]. *)
Fixpoint index_last {A : Type} (l : list A) : option A :=
  match l with
  | [] => None
  | [x] => Some x
  | _ :: r => index_last r
  end.

Definition is_upper (a : ascii) : bool :=
  let n := nat_of_ascii a in (65 <=? n)%nat && (n <=? 90)%nat.

Definition lower_char (a : ascii) : ascii :=
  if is_upper a then ascii_of_nat (nat_of_ascii a + 32) else a.

(** [s.lower()] on ASCII text: the letters [A-Z] only are changed. *)
Fixpoint lower (s : string) : string :=
  match s with
  | EmptyString => EmptyString
  | String a r => String (lower_char a) (lower r)
  end.

(** [s.startswith(c)] and [s.endswith(c)] for one character. *)
Definition startswith (c : ascii) (s : string) : bool :=
  match s with
  | String a _ => Ascii.eqb a c
  | EmptyString => false
  end.

Fixpoint endswith (c : ascii) (s : string) : bool :=
  match s with
  | EmptyString => false
  | String a EmptyString => Ascii.eqb a c
  | String _ r => endswith c r
  end.

(** The digits of [format(n, ',')], least significant first, with a
    comma after every third digit that has a successor. *)
Fixpoint group3 (k : nat) (rev_digits : list ascii) : list ascii :=
  match rev_digits with
  | [] => []
  | d :: r =>
      match k, r with
      | 2%nat, _ :: _ => d :: ","%char :: group3 0 r
      | _, _ => d :: group3 (S k) r
      end
  end.

(** [f"{n:,}"] for a non-negative integer. *)
Definition format_thousands (n : N) : string :=
  let digits := list_ascii_of_string (NilEmpty.string_of_uint (N.to_uint n)) in
  string_of_list_ascii (rev (group3 0 (rev digits))).

End PyStr.

(* ================================================================= *)
(** ** Name and type derivation in [get_stage_files] *)

(** [file_path.split('/')[-1] if '/' in file_path else file_path].
    The subscript cannot fail, [split] being non-empty; the model keeps
    the path in that unreachable case. *)
Definition derive_file_name (file_path : string) : string :=
  if PyStr.contains "/" file_path then
    match PyStr.index_last (PyStr.split "/" file_path) with
    | Some seg => seg
    | None => file_path
    end
  else file_path.

(** [file_name.split('.')[-1].lower() if '.' in file_name else 'unknown']. *)
Definition derive_file_type (file_name : string) : string :=
  if PyStr.contains "." file_name then
    match PyStr.index_last (PyStr.split "." file_name) with
    | Some ext => PyStr.lower ext
    | None => "unknown"
    end
  else "unknown".

(* ================================================================= *)
(** ** The world of the script: platform, trace, exceptions *)

(** An instance of Python's [Exception], which is what [os] and the
    Snowpark client raise; [str(e)] is its message. The exceptions
    outside [Exception] ([KeyboardInterrupt], [SystemExit]), which no
    handler of the script catches, are not part of this world: the
    module [Signals] has them, for [download_file_from_stage]. *)
Inductive exn : Type := Exception (msg : string).

Definition str (e : exn) : string := match e with Exception m => m end.

Inductive result (A : Type) : Type :=
| Ok (a : A)
| Raise (e : exn).
Arguments Ok {A} a.
Arguments Raise {A} e.

(** A row of a query result, with the columns the script reads:
    [row['name']], [row['size']], [row['last_modified']]. *)
Record sql_row : Type := {
  row_name : string;
  row_size : N;
  row_last_modified : string
}.

(** What the script calls outside itself. Each call may change the
    environment and may raise. *)
Class Platform : Type := {
  Env : Type;
  (** [Session.builder.configs(...).create()] *)
  session_create : Env -> result unit * Env;
  (** [session.sql(query).collect()] *)
  sql_collect : string -> Env -> result (list sql_row) * Env;
  (** [session.file.get(stage_file_path, target_directory)]: completion
      or exception, no per-file result the script looks at. *)
  file_get : string -> string -> Env -> result unit * Env;
  (** [os.makedirs(path, exist_ok=True)] *)
  os_makedirs : string -> Env -> result unit * Env;
  (** [os.path.exists(path)] *)
  os_path_exists : string -> Env -> bool
}.

(** The messages the script shows, by kind and parameters (the markup
    around them is left out). *)
Inductive status : Type :=
| Downloading (file_name : string)
| DownloadComplete (success_count total_files : nat)
| DownloadFailed.

Inductive block : Type :=
| ConnectedNow
| ConnectFailed (err : string)
| ConnectedAlready
| FolderValidated (download_folder : string)
| InvalidFolder (err : string)
| NoStagesFound
| StageCount (n : nat)
| NoFilesFound
| FileStatistics (total_files : nat)
| DownloadSummary (selected : nat) (download_folder selected_stage : string)
| NoFilesSelected
| ProgressHeader
| CompletedBox (success_count total_files : nat) (download_folder : string)
| DownloadedList (names : list string)
| FailedList (names : list string)
| FailedBox.

(** The trace: platform calls and Streamlit output, oldest first. *)
Inductive event : Type :=
| CallConnect
| CallSql (query : string)
| CallFileGet (stage_file_path target_directory : string)
| CallMakedirs (path : string)
| CallExists (path : string)
| StError (msg : string)
| NewProgressBar (value : Q)       (* [st.progress(value)] *)
| NewStatusText                    (* [st.empty()] *)
| StatusText (s : status)          (* [status_text.markdown(...)] *)
| ProgressBar (value : Q)          (* [progress_bar.progress(value)] *)
| Markdown (b : block).

(** [os.path.join(a, p)] on POSIX, for two components. *)
Definition os_path_join (a p : string) : string :=
  if PyStr.startswith "/" p then p
  else if (String.eqb a "" || PyStr.endswith "/" a)%bool then a ++ p
  else a ++ "/" ++ p.

(** One record of the frame built by [get_stage_files]. *)
Record file_record : Type := {
  File_Name : string;
  File_Size : string;
  File_Type : string;
  Last_Modified : string;
  File_Path : string
}.

(** A row of the frame shown in the data editor. *)
Record display_row : Type := {
  Select : bool;
  shown : file_record
}.

(** The loop's variables, which are what the final report shows. *)
Record DownloadOutcome : Type := {
  success_count : nat;
  total_files : nat;
  downloaded_files : list string;
  failed_files : list string
}.

(** What the user did in the widgets during this run of the script. *)
Record Inputs : Type := {
  download_folder : string;         (* the text input *)
  stage_choice : nat;               (* position chosen in the select box *)
  select_all : bool;                (* the "select all" check box *)
  edits : nat -> option bool;       (* check boxes ticked or cleared, by row *)
  start_download : bool             (* the button *)
}.

(** Where [main] stops. *)
Inductive main_exit : Type :=
| Stopped                 (* [st.stop()] after a failed connection *)
| ReturnedInvalidFolder   (* [return] in the folder validation *)
| ReturnedNoStages        (* [return] when no stage is listed *)
| ReturnedNoFiles         (* [return] when the frame is empty *)
| EndedNoStage            (* [selected_stage] is falsy *)
| EndedNoSelection        (* nothing selected *)
| EndedNotStarted         (* button not pressed *)
| EndedDownload (o : DownloadOutcome).

Section Script.

Context {P : Platform}.

Record World : Type := {
  env : Env;
  session_in_state : bool;        (* ['session' in st.session_state] *)
  trace : list event
}.

(** The world [w] once the environment has become [e] and the events
    [evs] have been added to the trace. *)
Definition after (w : World) (e : Env) (evs : list event) : World :=
  {| env := e; session_in_state := session_in_state w;
     trace := (trace w ++ evs)%list |}.

(** Computations of the script: world passing with exceptions. The
    world reached when an exception is raised is kept. *)
Definition M (A : Type) : Type := World -> result A * World.

Definition ret {A} (a : A) : M A := fun w => (Ok a, w).

Definition bind {A B} (m : M A) (k : A -> M B) : M B :=
  fun w => match m w with
           | (Ok a, w') => k a w'
           | (Raise e, w') => (Raise e, w')
           end.

(** [try: body except Exception as e: handler e]. *)
Definition try_except {A} (body : M A) (handler : exn -> M A) : M A :=
  fun w => match body w with
           | (Ok a, w') => (Ok a, w')
           | (Raise e, w') => handler e w'
           end.

Definition emit (e : event) : M unit :=
  fun w => (Ok tt, {| env := env w; session_in_state := session_in_state w;
                      trace := (trace w ++ [e])%list |}).

(** A platform call that may raise, logged before it runs. *)
Definition call {A} (e : event) (f : Env -> result A * Env) : M A :=
  fun w => let (r, env') := f (env w) in
           (r, {| env := env'; session_in_state := session_in_state w;
                  trace := (trace w ++ [e])%list |}).

Definition exists_call (path : string) : M bool :=
  fun w => (Ok (os_path_exists path (env w)),
            {| env := env w; session_in_state := session_in_state w;
               trace := (trace w ++ [CallExists path])%list |}).

Definition get_session_in_state : M bool :=
  fun w => (Ok (session_in_state w), w).

Definition set_session_in_state : M unit :=
  fun w => (Ok tt, {| env := env w; session_in_state := true; trace := trace w |}).

End Script.

Declare Scope script_scope.
Delimit Scope script_scope with script.
Notation "x <- m ;; k" := (bind m (fun x => k))
  (at level 61, m at next level, right associativity) : script_scope.
Notation "m ;; k" := (bind m (fun _ => k))
  (at level 61, right associativity) : script_scope.

(* ================================================================= *)
(** ** The functions of the script *)

Module PyStrUpper.

Definition is_lower (a : ascii) : bool :=
  let n := nat_of_ascii a in (97 <=? n)%nat && (n <=? 122)%nat.

Definition upper_char (a : ascii) : ascii :=
  if is_lower a then ascii_of_nat (nat_of_ascii a - 32) else a.

(** [s.upper()] on ASCII text: the letters [a-z] only are changed. *)
Fixpoint upper (s : string) : string :=
  match s with
  | EmptyString => EmptyString
  | String a r => String (upper_char a) (upper r)
  end.

End PyStrUpper.

(** [icons.get(key, default)] on the literal table of [get_file_icon]. *)
Fixpoint dict_get (icons : list (string * string)) (key default : string) : string :=
  match icons with
  | [] => default
  | (k, v) :: r => if String.eqb k key then v else dict_get r key default
  end.

Definition get_file_icon (file_type : string) : string :=
  let icons :=
    [ ("csv", "📊"); ("json", "📋"); ("txt", "📄"); ("pdf", "📕");
      ("xlsx", "📗"); ("xls", "📗"); ("png", "🖼️"); ("jpg", "🖼️");
      ("jpeg", "🖼️"); ("mp4", "🎬"); ("mp3", "🎵"); ("wav", "🎵");
      ("zip", "📦"); ("sql", "🗃️"); ("py", "🐍"); ("parquet", "📊") ] in
  dict_get icons (PyStr.lower file_type) "📁".

(** The truth value of an optional string ([None] and [''] are falsy). *)
Definition truthy (s : option string) : bool :=
  match s with
  | Some s => negb (String.eqb s "")
  | None => false
  end.

(** [len(x) > 0] / [not x] on lists. *)
Definition is_empty {A} (l : list A) : bool :=
  match l with [] => true | _ => false end.

Section Functions.

Context {P : Platform}.
Local Open Scope script_scope.
Local Open Scope string_scope.

Definition create_snowflake_session : M unit :=
  call CallConnect session_create.

Definition get_stages_list : M (list string) :=
  try_except
    (result <- call (CallSql "SHOW STAGES") (sql_collect "SHOW STAGES") ;;
     let stages := map row_name result in
     ret stages)
    (fun e =>
       emit (StError ("Error fetching stages: " ++ str e)) ;;
       ret []).

(** The body of the [for row in result] loop of [get_stage_files]. *)
Definition file_record_of_row (row : sql_row) : file_record :=
  let file_path := row_name row in
  let file_name := derive_file_name file_path in
  let file_size := row_size row in
  let last_modified := row_last_modified row in
  let file_extension := derive_file_type file_name in
  let file_type := file_extension in
  {| File_Name := file_name;
     File_Size := PyStr.format_thousands file_size ++ " bytes";
     File_Type := file_type;
     Last_Modified := last_modified;
     File_Path := file_path |}.

(** A frame is the list of its records; [pd.DataFrame()] and
    [pd.DataFrame([])] are both the empty frame. *)
Definition get_stage_files (stage_name : string) : M (list file_record) :=
  try_except
    (let query := "LIST @" ++ stage_name in
     result <- call (CallSql query) (sql_collect query) ;;
     let files_data := map file_record_of_row result in
     ret files_data)
    (fun e =>
       emit (StError ("Error fetching files from stage " ++ stage_name
                      ++ ": " ++ str e)) ;;
       ret []).

Definition download_file_from_stage
    (stage_name file_path local_directory file_name : string) : M bool :=
  try_except
    (call (CallMakedirs local_directory) (os_makedirs local_directory) ;;
     let local_file_path := os_path_join local_directory file_name in
     let stage_file_path := "@" ++ file_path in
     get_result <- call (CallFileGet stage_file_path local_directory)
                        (file_get stage_file_path local_directory) ;;
     found <- exists_call local_file_path ;;
     if found then ret true
     else
       emit (StError ("File " ++ file_name ++ " was not found after download")) ;;
       ret false)
    (fun e =>
       emit (StError ("Error downloading file " ++ file_path ++ ": " ++ str e)) ;;
       ret false).

(** [(idx + 1) / total_files]: Python's true division of two integers.
    The model keeps the two integers, as numerator and denominator; the
    float that Python passes on is their quotient rounded to the
    nearest double. *)
Definition progress_fraction (idx total_files : nat) : Q :=
  Qmake (Z.of_nat (idx + 1)) (Pos.of_nat total_files).

(** The branch on the result of one transfer: [success_count += 1] and
    [downloaded_files.append(file_name)], or
    [failed_files.append(file_name)]. *)
Definition tally (acc : DownloadOutcome) (file_name : string) (ok : bool)
  : DownloadOutcome :=
  if ok then
    {| success_count := success_count acc + 1;
       total_files := total_files acc;
       downloaded_files := (downloaded_files acc ++ [file_name])%list;
       failed_files := failed_files acc |}
  else
    {| success_count := success_count acc;
       total_files := total_files acc;
       downloaded_files := downloaded_files acc;
       failed_files := (failed_files acc ++ [file_name])%list |}.

(** The [for idx, (_, file_row) in enumerate(selected_files.iterrows())]
    loop of [main], from position [idx] on, with the loop's variables
    in [acc]. *)
Fixpoint download_loop_from (selected_stage download_folder : string)
    (idx : nat) (rows : list display_row) (acc : DownloadOutcome)
  : M DownloadOutcome :=
  match rows with
  | [] => ret acc
  | file_row :: rest =>
      let file_path := File_Path (shown file_row) in
      let file_name := File_Name (shown file_row) in
      emit (StatusText (Downloading file_name)) ;;
      ok <- download_file_from_stage selected_stage file_path download_folder file_name ;;
      let acc' := tally acc file_name ok in
      let progress := progress_fraction idx (total_files acc) in
      emit (ProgressBar progress) ;;
      download_loop_from selected_stage download_folder (S idx) rest acc'
  end.

(** The loop with its variables initialised as [main] does. *)
Definition download_loop (selected_stage download_folder : string)
    (selected_files : list display_row) : M DownloadOutcome :=
  download_loop_from selected_stage download_folder 0 selected_files
    {| success_count := 0;
       total_files := length selected_files;
       downloaded_files := [];
       failed_files := [] |}.

(** The final status of [main]. *)
Definition show_final_status (download_folder : string) (o : DownloadOutcome) : M unit :=
  if (0 <? success_count o)%nat then
    emit (StatusText (DownloadComplete (success_count o) (total_files o))) ;;
    emit (Markdown (CompletedBox (success_count o) (total_files o) download_folder)) ;;
    (if is_empty (downloaded_files o) then ret tt
     else emit (Markdown (DownloadedList (downloaded_files o)))) ;;
    (if is_empty (failed_files o) then ret tt
     else emit (Markdown (FailedList (failed_files o))))
  else
    emit (StatusText DownloadFailed) ;;
    emit (Markdown FailedBox).

(** The frame handed to the data editor: the type column decorated,
    the select column set to [select_all]. *)
Definition display_frame (select_all : bool) (files_df : list file_record)
  : list display_row :=
  map (fun r =>
         {| Select := select_all;
            shown := {| File_Name := File_Name r;
                        File_Size := File_Size r;
                        File_Type := get_file_icon (File_Type r) ++ " "
                                     ++ PyStrUpper.upper (File_Type r);
                        Last_Modified := Last_Modified r;
                        File_Path := File_Path r |} |})
      files_df.

(** [st.data_editor]: every column but [Select] is disabled, rows can be
    neither added nor removed. *)
Fixpoint data_editor_from (i : nat) (edits : nat -> option bool)
    (df : list display_row) : list display_row :=
  match df with
  | [] => []
  | r :: rest =>
      {| Select := match edits i with Some b => b | None => Select r end;
         shown := shown r |} :: data_editor_from (S i) edits rest
  end.

Definition data_editor := data_editor_from 0.

(** The "initialize session" block of [main]: [false] when the script
    is stopped by [st.stop()]. *)
Definition init_session : M bool :=
  has <- get_session_in_state ;;
  if negb has then
    try_except
      (create_snowflake_session ;;
       set_session_in_state ;;
       emit (Markdown ConnectedNow) ;;
       ret true)
      (fun e =>
         emit (Markdown (ConnectFailed (str e))) ;;
         ret false)
  else
    emit (Markdown ConnectedAlready) ;;
    ret true.

(** The "validate download folder" block of [main], skipped for the
    empty string: [false] when [main] returns from it. *)
Definition validate_download_folder (download_folder : string) : M bool :=
  if negb (String.eqb download_folder "") then
    try_except
      (call (CallMakedirs download_folder) (os_makedirs download_folder) ;;
       emit (Markdown (FolderValidated download_folder)) ;;
       ret true)
      (fun e =>
         emit (Markdown (InvalidFolder (str e))) ;;
         ret false)
  else ret true.

(** The stage selection, file browser and download sections of [main]. *)
Definition browse_and_download (inp : Inputs) : M main_exit :=
  stages <- get_stages_list ;;
  if is_empty stages then
    emit (Markdown NoStagesFound) ;;
    ret ReturnedNoStages
  else
  let selected_stage := nth_error stages (stage_choice inp) in
  emit (Markdown (StageCount (length stages))) ;;
  match selected_stage with
  | Some stage =>
    if negb (truthy selected_stage) then ret EndedNoStage else
    files_df <- get_stage_files stage ;;
    if is_empty files_df then
      emit (Markdown NoFilesFound) ;;
      ret ReturnedNoFiles
    else
    emit (Markdown (FileStatistics (length files_df))) ;;
    let files_df_display := display_frame (select_all inp) files_df in
    let edited_df := data_editor (edits inp) files_df_display in
    let selected_files := filter Select edited_df in
    (if (0 <? length selected_files)%nat then
       emit (Markdown (DownloadSummary (length selected_files)
                         (download_folder inp) stage))
     else emit (Markdown NoFilesSelected)) ;;
    if (0 <? length selected_files)%nat then
      if start_download inp then
        emit (Markdown ProgressHeader) ;;
        emit (NewProgressBar 0%Q) ;;
        emit NewStatusText ;;
        o <- download_loop stage (download_folder inp) selected_files ;;
        show_final_status (download_folder inp) o ;;
        ret (EndedDownload o)
      else ret EndedNotStarted
    else ret EndedNoSelection
  | None => ret EndedNoStage
  end.

(** [main]: one run of the script on the user's inputs. Page set-up,
    headers and the metrics are left out. They draw, with one
    exception: the size metric calls [format_file_size] on the total
    size, which raises [IndexError] from about [1024 ** 5] bytes on
    (see [metrics_size_bound]); the script then ends there, before the
    selection, where the model goes on. *)
Definition main (inp : Inputs) : M main_exit :=
  connected <- init_session ;;
  if negb connected then ret Stopped else
  valid <- validate_download_folder (download_folder inp) ;;
  if negb valid then ret ReturnedInvalidFolder else
  browse_and_download inp.

End Functions.

(* ================================================================= *)
(** ** A small concrete platform, for running the script *)

Module Toy.

Local Open Scope string_scope.

(** A stage account and a local disk, as far as the script can tell. *)
Record disk : Type := {
  online : bool;                              (* can a session be created *)
  listings : list (string * list sql_row);    (* the stages and their files *)
  locked : list string;                       (* the stages that may not be listed *)
  remote_files : list string;                 (* what [GET] can fetch *)
  failing_files : list string;                (* what [GET] raises on *)
  denied_dirs : list string;                  (* what [makedirs] is refused *)
  local_files : list string                   (* the paths that exist locally *)
}.

Definition mem (s : string) (l : list string) : bool := existsb (String.eqb s) l.

Fixpoint lookup {A} (k : string) (l : list (string * A)) : option A :=
  match l with
  | [] => None
  | (k', v) :: r => if String.eqb k' k then Some v else lookup k r
  end.

(** [q] without the prefix [p], when it has it. *)
Fixpoint strip_prefix (p q : string) : option string :=
  match p, q with
  | EmptyString, _ => Some q
  | String a p', String b q' => if Ascii.eqb a b then strip_prefix p' q' else None
  | String _ _, EmptyString => None
  end.

Definition stage_row (name : string) : sql_row :=
  {| row_name := name; row_size := 0; row_last_modified := "" |}.

Definition toy_create (d : disk) : result unit * disk :=
  if online d then (Ok tt, d)
  else (Raise (Exception "250001: Could not connect to Snowflake backend"), d).

Definition toy_sql (query : string) (d : disk) : result (list sql_row) * disk :=
  if String.eqb query "SHOW STAGES" then
    (Ok (map (fun kv => stage_row (fst kv)) (listings d)), d)
  else
    match strip_prefix "LIST @" query with
    | Some stage =>
        if mem stage (locked d) then
          (Raise (Exception "003001: Insufficient privileges to operate on stage"), d)
        else
          match lookup stage (listings d) with
          | Some rows => (Ok rows, d)
          | None =>
              (Raise (Exception "002003: Stage does not exist or not authorized"), d)
          end
    | None => (Raise (Exception "001003: SQL compilation error"), d)
    end.

(** [GET]: raises on a failing file, writes a fetchable one under its
    last path segment, and completes with nothing written when no file
    matches. *)
Definition toy_get (stage_file_path target : string) (d : disk) : result unit * disk :=
  if mem stage_file_path (failing_files d) then
    (Raise (Exception ("253006: File transfer failed: " ++ stage_file_path)), d)
  else if mem stage_file_path (remote_files d) then
    (Ok tt, {| online := online d; listings := listings d; locked := locked d;
               remote_files := remote_files d; failing_files := failing_files d;
               denied_dirs := denied_dirs d;
               local_files := os_path_join target (derive_file_name stage_file_path)
                              :: local_files d |})
  else (Ok tt, d).

(** [os.makedirs(path, exist_ok=True)]: the empty path is an error. *)
Definition toy_makedirs (path : string) (d : disk) : result unit * disk :=
  if String.eqb path "" then
    (Raise (Exception "[Errno 2] No such file or directory: ''"), d)
  else if mem path (denied_dirs d) then
    (Raise (Exception ("[Errno 13] Permission denied: '" ++ path ++ "'")), d)
  else (Ok tt, d).

Definition toy_exists (path : string) (d : disk) : bool := mem path (local_files d).

#[export] Instance platform : Platform := {|
  Env := disk;
  session_create := toy_create;
  sql_collect := toy_sql;
  file_get := toy_get;
  os_makedirs := toy_makedirs;
  os_path_exists := toy_exists
|}.

Definition file (path : string) (size : N) : sql_row :=
  {| row_name := path; row_size := size; row_last_modified := "2024-01-01" |}.

(** One stage [DATA] with three files, the second of which cannot be
    transferred; a stage [EMPTY] without files; a stage [LOCKED] that
    may not be listed; [/root] not writable. *)
Definition disk0 : disk := {|
  online := true;
  listings :=
    [ ("DATA", [ file "data/a.csv" 10; file "data/sub/b.JSON" 2048; file "data/README" 7 ]);
      ("EMPTY", []);
      ("LOCKED", [ file "locked/secret.txt" 1 ]) ];
  locked := [ "LOCKED" ];
  remote_files := [ "@data/a.csv"; "@data/README" ];
  failing_files := [ "@data/sub/b.JSON" ];
  denied_dirs := [ "/root" ];
  local_files := []
|}.

Definition world0 : World := {| env := disk0; session_in_state := true; trace := [] |}.

Definition row (path : string) : display_row :=
  {| Select := true;
     shown := {| File_Name := derive_file_name path; File_Size := "0 bytes";
                 File_Type := derive_file_type (derive_file_name path);
                 Last_Modified := ""; File_Path := path |} |}.

Definition three_files : list display_row :=
  [ row "data/a.csv"; row "data/sub/b.JSON"; row "data/README" ].

(** The user selects everything and presses the button. *)
Definition download_all (folder : string) (stage : nat) : Inputs := {|
  download_folder := folder;
  stage_choice := stage;
  select_all := true;
  edits := fun _ => None;
  start_download := true
|}.

(** What the calls of the small platform leave as it is. *)
Definition same_files (d : disk) : Prop :=
  remote_files d = remote_files disk0
  /\ failing_files d = failing_files disk0
  /\ denied_dirs d = denied_dirs disk0.

End Toy.

(** The events of a trace that are calls of the fetch primitive. *)
Definition is_file_get (ev : event) : bool :=
  match ev with CallFileGet _ _ => true | _ => false end.

(** The events of a trace that are calls of [os.makedirs]. *)
Definition is_makedirs (ev : event) : bool :=
  match ev with CallMakedirs _ => true | _ => false end.

(** The values given to the progress bar, oldest first. *)
Fixpoint progress_values (evs : list event) : list Q :=
  match evs with
  | [] => []
  | ProgressBar q :: r => q :: progress_values r
  | _ :: r => progress_values r
  end.

(** The file names announced in the status line, oldest first. *)
Fixpoint announced (evs : list event) : list string :=
  match evs with
  | [] => []
  | StatusText (Downloading n) :: r => n :: announced r
  | _ :: r => announced r
  end.

(** The status and progress events of a trace. *)
Definition is_step (ev : event) : bool :=
  match ev with StatusText _ | ProgressBar _ => true | _ => false end.

(** The steps the loop is to show for [rows], from position [idx], of
    [n] files. *)
Fixpoint expected_steps (n idx : nat) (rows : list display_row) : list event :=
  match rows with
  | [] => []
  | r :: rest =>
      StatusText (Downloading (File_Name (shown r)))
      :: ProgressBar (progress_fraction idx n)
      :: expected_steps n (S idx) rest
  end.

Definition names_of (rows : list display_row) : list string :=
  map (fun r => File_Name (shown r)) rows.

(** The names of the rows whose transfer returned [b], given the
    results of the transfers in row order. *)
Fixpoint picked (b : bool) (rows : list display_row) (oks : list bool) : list string :=
  match rows, oks with
  | r :: rows', ok :: oks' =>
      if Bool.eqb ok b then File_Name (shown r) :: picked b rows' oks'
      else picked b rows' oks'
  | _, _ => []
  end.

(* ================================================================= *)
(** ** More of the script: sizes, connection parameters, selection *)

Module PyText.

(** [s.replace(old, new)]: the occurrences of [old] are replaced from
    the left, without overlap; [skip] counts the characters of a
    replaced occurrence that are still to be passed over. With [old]
    empty, [new] goes before every character and at the end. *)
Fixpoint replace_from (old new : string) (skip : nat) (s : string) : string :=
  match s with
  | EmptyString =>
      match old with EmptyString => new | String _ _ => EmptyString end
  | String a r =>
      match skip with
      | S k => replace_from old new k r
      | O =>
          if String.prefix old s then
            match old with
            | EmptyString => new ++ String a (replace_from old new 0 r)
            | String _ old' => new ++ replace_from old new (String.length old') r
            end
          else String a (replace_from old new 0 r)
      end
  end.

Definition replace (old new s : string) : string := replace_from old new 0 s.

Definition is_digit (a : ascii) : bool :=
  let n := nat_of_ascii a in (48 <=? n)%nat && (n <=? 57)%nat.

(** [int(s)] for a string of ASCII digits, [None] for the [ValueError]
    on the empty string and on any other character. (Signs, blanks and
    underscores, which [int] also reads, are not modelled: they give
    [None] here.) *)
Definition int_of_digits (s : string) : option N :=
  match s with
  | EmptyString => None
  | String _ _ => option_map N.of_uint (NilEmpty.uint_of_string s)
  end.

End PyText.

(** [int(row['File Size'].replace(',', '').replace(' bytes', ''))], the
    size read back from a record in the statistics of [main]. *)
Definition parse_file_size (file_size : string) : option N :=
  PyText.int_of_digits (PyText.replace " bytes" "" (PyText.replace "," "" file_size)).

(** [sum(... for _, row in files_df.iterrows())] from [acc] on: [None]
    when a size cannot be read. *)
Fixpoint sum_sizes (acc : N) (files_df : list file_record) : option N :=
  match files_df with
  | [] => Some acc
  | row :: rest =>
      match parse_file_size (File_Size row) with
      | Some size => sum_sizes (acc + size) rest
      | None => None
      end
  end.

Definition total_size (files_df : list file_record) : option N :=
  sum_sizes 0 files_df.

(** [d.get(key)] / [key in d] on a dictionary kept as its items, in
    insertion order. *)
Fixpoint dict_find {A} (d : list (string * A)) (key : string) : option A :=
  match d with
  | [] => None
  | (k, v) :: r => if String.eqb k key then Some v else dict_find r key
  end.

(** The dictionary literal of [create_snowflake_session], by parameter
    name and environment variable. *)
Definition connection_variables : list (string * string) :=
  [ ("account", "SNOWFLAKE_ACCOUNT");
    ("user", "SNOWFLAKE_USER");
    ("password", "SNOWFLAKE_PASSWORD");
    ("role", "SNOWFLAKE_ROLE");
    ("warehouse", "SNOWFLAKE_WAREHOUSE");
    ("database", "SNOWFLAKE_DATABASE");
    ("schema", "SNOWFLAKE_SCHEMA") ].

(** The [connection_parameters] that [create_snowflake_session] hands
    to the session builder, given [os.getenv]:
    [{k: v for k, v in connection_parameters.items() if v is not None}]. *)
Definition connection_parameters (getenv : string -> option string)
  : list (string * string) :=
  let connection_parameters :=
    map (fun kv => (fst kv, getenv (snd kv))) connection_variables in
  flat_map (fun kv => match snd kv with
                      | Some v => [(fst kv, v)]
                      | None => []
                      end)
           connection_parameters.

(** The state of the check box of row [i] after the user's edits. *)
Definition ticked (select_all : bool) (edits : nat -> option bool) (i : nat) : bool :=
  match edits i with Some b => b | None => select_all end.

(** The elements of [l] whose position, counted from [i], is kept. *)
Fixpoint keep_at {A} (keep : nat -> bool) (i : nat) (l : list A) : list A :=
  match l with
  | [] => []
  | x :: r => if keep i then x :: keep_at keep (S i) r else keep_at keep (S i) r
  end.

(** [edited_df[edited_df['Select'] == True]] as [main] computes it from
    the listing. *)
Definition selected_rows (select_all : bool) (edits : nat -> option bool)
    (files_df : list file_record) : list display_row :=
  filter Select (data_editor edits (display_frame select_all files_df)).

(** The fetch that the transfer of a row makes. *)
Definition fetch_of (download_folder : string) (r : display_row) : event :=
  CallFileGet ("@" ++ File_Path (shown r)) download_folder.

(** More kinds of events. *)
Definition is_connect (ev : event) : bool :=
  match ev with CallConnect => true | _ => false end.

Definition is_sql (ev : event) : bool :=
  match ev with CallSql _ => true | _ => false end.

(** What the final status of [main] shows for an outcome. *)
Definition final_status_events (download_folder : string) (o : DownloadOutcome)
  : list event :=
  if (success_count o =? 0)%nat then
    [StatusText DownloadFailed; Markdown FailedBox]
  else
    [StatusText (DownloadComplete (success_count o) (total_files o));
     Markdown (CompletedBox (success_count o) (total_files o) download_folder);
     Markdown (DownloadedList (downloaded_files o))]
    ++ (if is_empty (failed_files o) then []
        else [Markdown (FailedList (failed_files o))])%list.

(* ================================================================= *)
(** ** The earlier copy of the script *)

Module Copy.

Section Loop.

Context {P : Platform}.
Local Open Scope script_scope.

(** The download loop of [main] in [download_files copy.py]: the same
    transfers, a success count and a list of downloaded names, and no
    list of failed names. Its status line is written with
    [status_text.text] and in other words; the trace records the update
    of the status element with the file name, as for the other loop. *)
Fixpoint download_loop_from (selected_stage download_folder : string)
    (idx total_files : nat) (rows : list display_row)
    (success_count : nat) (downloaded_files : list string)
  : M (nat * list string) :=
  match rows with
  | [] => ret (success_count, downloaded_files)
  | file_row :: rest =>
      let file_path := File_Path (shown file_row) in
      let file_name := File_Name (shown file_row) in
      emit (StatusText (Downloading file_name)) ;;
      ok <- download_file_from_stage selected_stage file_path download_folder file_name ;;
      let success_count' := if ok then success_count + 1 else success_count in
      let downloaded_files' :=
        if ok then (downloaded_files ++ [file_name])%list else downloaded_files in
      let progress := progress_fraction idx total_files in
      emit (ProgressBar progress) ;;
      download_loop_from selected_stage download_folder (S idx) total_files rest
        success_count' downloaded_files'
  end.

Definition download_loop (selected_stage download_folder : string)
    (selected_files : list display_row) : M (nat * list string) :=
  download_loop_from selected_stage download_folder 0 (length selected_files)
    selected_files 0 [].

End Loop.

End Copy.

(* ================================================================= *)
(** ** The trace of a batch, transfer by transfer *)

(** What one transfer of the row [r] adds to the trace, with the value
    it returns: the four ways through [download_file_from_stage]. *)
Inductive transfer_events (download_folder : string) (r : display_row)
  : bool -> list event -> Prop :=
| makedirs_raised (msg : string) :
    transfer_events download_folder r false
      [CallMakedirs download_folder;
       StError ("Error downloading file " ++ File_Path (shown r) ++ ": " ++ msg)]
| fetch_raised (msg : string) :
    transfer_events download_folder r false
      [CallMakedirs download_folder;
       fetch_of download_folder r;
       StError ("Error downloading file " ++ File_Path (shown r) ++ ": " ++ msg)]
| file_missing :
    transfer_events download_folder r false
      [CallMakedirs download_folder;
       fetch_of download_folder r;
       CallExists (os_path_join download_folder (File_Name (shown r)));
       StError ("File " ++ File_Name (shown r) ++ " was not found after download")]
| file_found :
    transfer_events download_folder r true
      [CallMakedirs download_folder;
       fetch_of download_folder r;
       CallExists (os_path_join download_folder (File_Name (shown r)))].

(** The trace of the loop over [rows], from position [idx], of [n]
    files, when the transfers add [segs]: for each row its
    announcement, what its transfer adds, and its progress value. *)
Fixpoint turns (n idx : nat) (rows : list display_row) (segs : list (list event))
  : list event :=
  match rows, segs with
  | r :: rest, seg :: segs' =>
      (StatusText (Downloading (File_Name (shown r))) :: seg)
      ++ ProgressBar (progress_fraction idx n) :: turns n (S idx) rest segs'
  | _, _ => []
  end.

(** Platforms on which a batch can be followed file by file: [Inv]
    holds of the environments the batch goes through. *)
Section Behaviour.

Context {P : Platform}.

(** [os.makedirs] of the folder returns in every environment of [Inv]. *)
Definition folder_can_be_made (download_folder : string) (Inv : Env -> Prop) : Prop :=
  forall e, Inv e ->
  exists e', os_makedirs download_folder e = (Ok tt, e') /\ Inv e'.

(** In every environment of [Inv] the file of row [r] arrives (its
    fetch returns and the file is there afterwards), unless [fails r]:
    then its fetch raises, or returns and leaves no file. *)
Definition arrives_unless (download_folder : string) (Inv : Env -> Prop)
    (fails : display_row -> bool) (r : display_row) : Prop :=
  forall e, Inv e ->
  if fails r then
    (exists x e',
       file_get ("@" ++ File_Path (shown r)) download_folder e = (Raise x, e')
       /\ Inv e')
    \/ (exists e',
          file_get ("@" ++ File_Path (shown r)) download_folder e = (Ok tt, e')
          /\ Inv e'
          /\ os_path_exists (os_path_join download_folder (File_Name (shown r))) e'
             = false)
  else
    exists e',
      file_get ("@" ++ File_Path (shown r)) download_folder e = (Ok tt, e')
      /\ Inv e'
      /\ os_path_exists (os_path_join download_folder (File_Name (shown r))) e'
         = true.

End Behaviour.

(** The strings on which the case mappings of the model, which change
    the letters [a-z] and [A-Z] only, are Python's [str.upper] and
    [str.lower]. *)
Definition is_ascii (s : string) : bool :=
  forallb (fun a => (nat_of_ascii a <? 128)%nat) (list_ascii_of_string s).

(** The size metric of [main] draws the total size with
    [format_file_size], which indexes its five unit names with
    [floor(log(size_bytes, 1024))], a floating-point logarithm. The call
    raises [IndexError] from [1024 ** 5] bytes on, and a little below,
    where the rounded logarithm is 5 already. Below half of that the
    logarithm is under 4.91 and the call returns. *)
Definition metrics_size_bound : N := 1024 ^ 5 / 2.

(* ================================================================= *)
(** ** Exceptions that [except Exception] does not catch *)

Module Signals.

(** What a call raises, by its place in Python's class hierarchy: an
    instance of [Exception], or an instance of [BaseException] only
    ([KeyboardInterrupt], [SystemExit], [GeneratorExit], the signals
    with which Streamlit stops or reruns a script). *)
Inductive raised : Type :=
| InstanceOfException (e : exn)
| OutsideException (class_name : string).

Inductive reply (A : Type) : Type :=
| Returns (a : A)
| Raises (r : raised).
Arguments Returns {A} a.
Arguments Raises {A} r.

(** The calls of [download_file_from_stage], [st.error] among them,
    each of which may raise either kind. *)
Class Calls : Type := {
  State : Type;
  (** [os.makedirs(path, exist_ok=True)] *)
  makedirs : string -> State -> reply unit * State;
  (** [session.file.get(stage_file_path, target_directory)] *)
  get : string -> string -> State -> reply unit * State;
  (** [os.path.exists(path)] *)
  path_exists : string -> State -> reply bool * State;
  (** [st.error(msg)] *)
  st_error : string -> State -> reply unit * State
}.

(** A reply that is no exception from outside [Exception]. *)
Definition catchable {A} (r : reply A) : Prop :=
  match r with
  | Raises (OutsideException _) => False
  | _ => True
  end.

Section Transfer.

Context {C : Calls}.

(** Computations: the state and the trace are passed on, also when an
    exception is raised. *)
Definition Run (A : Type) : Type :=
  State * list event -> reply A * (State * list event).

Definition ret {A} (a : A) : Run A := fun w => (Returns a, w).

Definition bind {A B} (m : Run A) (k : A -> Run B) : Run B :=
  fun w => match m w with
           | (Returns a, w') => k a w'
           | (Raises r, w') => (Raises r, w')
           end.

(** [try: body except Exception as e: handler e]: an exception from
    outside [Exception] passes. *)
Definition try_except {A} (body : Run A) (handler : exn -> Run A) : Run A :=
  fun w => match body w with
           | (Returns a, w') => (Returns a, w')
           | (Raises (InstanceOfException e), w') => handler e w'
           | (Raises (OutsideException c), w') => (Raises (OutsideException c), w')
           end.

(** A call, logged before it runs. *)
Definition call {A} (ev : event) (f : State -> reply A * State) : Run A :=
  fun w => let (r, s') := f (fst w) in (r, (s', (snd w ++ [ev])%list)).

Definition download_file_from_stage
    (stage_name file_path local_directory file_name : string) : Run bool :=
  try_except
    (bind (call (CallMakedirs local_directory) (makedirs local_directory)) (fun _ =>
     let local_file_path := os_path_join local_directory file_name in
     let stage_file_path := "@" ++ file_path in
     bind (call (CallFileGet stage_file_path local_directory)
                (get stage_file_path local_directory)) (fun get_result =>
     bind (call (CallExists local_file_path) (path_exists local_file_path)) (fun found =>
     if found then ret true
     else
       let msg := "File " ++ file_name ++ " was not found after download" in
       bind (call (StError msg) (st_error msg)) (fun _ =>
       ret false)))))
    (fun e =>
       let msg := "Error downloading file " ++ file_path ++ ": " ++ str e in
       bind (call (StError msg) (st_error msg)) (fun _ =>
       ret false)).

End Transfer.

Definition of_result {A} (r : result A) : reply A :=
  match r with
  | Ok a => Returns a
  | Raise e => Raises (InstanceOfException e)
  end.

(** The platform of the script as calls: every exception is an
    instance of [Exception], [os.path.exists] and [st.error] return. *)
Definition of_platform (P : Platform) : Calls := {|
  State := Env;
  makedirs := fun path s => let (r, s') := os_makedirs path s in (of_result r, s');
  get := fun stage_file_path target s =>
           let (r, s') := file_get stage_file_path target s in (of_result r, s');
  path_exists := fun path s => (Returns (os_path_exists path s), s);
  st_error := fun _ s => (Returns tt, s)
|}.

(** The small platform with a user who interrupts every fetch. *)
Definition interrupted_fetch : Calls := {|
  State := Toy.disk;
  makedirs := makedirs (Calls := of_platform Toy.platform);
  get := fun _ _ s => (Raises (OutsideException "KeyboardInterrupt"), s);
  path_exists := path_exists (Calls := of_platform Toy.platform);
  st_error := st_error (Calls := of_platform Toy.platform)
|}.

End Signals.

(* ================================================================= *)
(** ** Properties of the string helpers *)

Module PyStrFacts.

Import PyStr.

Lemma split_not_nil (c : ascii) (s : string) : split c s <> [].
Proof.
  destruct s as [|a r]; simpl; [discriminate|].
  destruct (Ascii.eqb a c); [discriminate|].
  destruct (split c r); discriminate.
Qed.

(** A string without the separator is its own single piece. *)
Lemma split_no_sep (c : ascii) (s : string) :
  contains c s = false -> split c s = [s].
Proof.
  induction s as [|a r IH]; simpl; intros H; [reflexivity|].
  destruct (Ascii.eqb a c); [discriminate|].
  rewrite (IH H). reflexivity.
Qed.

Lemma contains_app_sep (c : ascii) (pre suf : string) :
  contains c (pre ++ String c suf) = true.
Proof.
  induction pre as [|a r IH]; simpl.
  - rewrite Ascii.eqb_refl. reflexivity.
  - destruct (Ascii.eqb a c); [reflexivity|exact IH].
Qed.

Lemma index_last_cons {A} (x : A) (l : list A) (y : A) :
  index_last l = Some y -> index_last (x :: l) = Some y.
Proof. destruct l; [discriminate|]. intros H. exact H. Qed.

(** After the last separator comes the last piece. *)
Lemma split_app_sep (c : ascii) (pre suf : string) :
  contains c suf = false ->
  exists piece rest,
    split c (pre ++ String c suf) = piece :: rest /\ index_last rest = Some suf.
Proof.
  intros Hsuf. induction pre as [|a r (piece & rest & Hs & Hl)]; simpl.
  - rewrite Ascii.eqb_refl. exists EmptyString, [suf].
    rewrite (split_no_sep _ _ Hsuf). split; reflexivity.
  - destruct (Ascii.eqb a c).
    + exists EmptyString, (piece :: rest). rewrite Hs. split; [reflexivity|].
      apply index_last_cons, Hl.
    + rewrite Hs. exists (String a piece), rest. split; [reflexivity|exact Hl].
Qed.

Lemma index_last_split_app (c : ascii) (pre suf : string) :
  contains c suf = false ->
  index_last (split c (pre ++ String c suf)) = Some suf.
Proof.
  intros H. destruct (split_app_sep c pre suf H) as (piece & rest & Hs & Hl).
  rewrite Hs. apply index_last_cons, Hl.
Qed.

End PyStrFacts.

Lemma derive_file_name_after_sep (pre suf : string) :
  PyStr.contains "/" suf = false -> derive_file_name (pre ++ "/" ++ suf) = suf.
Proof.
  intros H. unfold derive_file_name. change ("/" ++ suf) with (String "/" suf).
  rewrite PyStrFacts.contains_app_sep, (PyStrFacts.index_last_split_app _ _ _ H).
  reflexivity.
Qed.

Lemma derive_file_name_no_sep (path : string) :
  PyStr.contains "/" path = false -> derive_file_name path = path.
Proof. intros H. unfold derive_file_name. rewrite H. reflexivity. Qed.

Lemma derive_file_type_after_dot (pre suf : string) :
  PyStr.contains "." suf = false ->
  derive_file_type (pre ++ "." ++ suf) = PyStr.lower suf.
Proof.
  intros H. unfold derive_file_type. change ("." ++ suf) with (String "." suf).
  rewrite PyStrFacts.contains_app_sep, (PyStrFacts.index_last_split_app _ _ _ H).
  reflexivity.
Qed.

Lemma derive_file_type_no_dot (name : string) :
  PyStr.contains "." name = false -> derive_file_type name = "unknown".
Proof. intros H. unfold derive_file_type. rewrite H. reflexivity. Qed.

(** The derived name holds no separator, so it names a file directly
    under the destination directory. *)
Lemma derive_file_name_no_slash (path : string) :
  PyStr.contains "/" (derive_file_name path) = false.
Proof.
  unfold derive_file_name. destruct (PyStr.contains "/" path) eqn:Hc; [|exact Hc].
  assert (G : forall s, Forall (fun p => PyStr.contains "/" p = false) (PyStr.split "/" s)).
  { induction s as [|a r IH]; simpl.
    - constructor; [reflexivity|constructor].
    - destruct (Ascii.eqb a "/") eqn:E.
      + constructor; [reflexivity|exact IH].
      + destruct (PyStr.split "/" r) as [|p ps]; simpl.
        * constructor; [simpl; rewrite E; reflexivity|constructor].
        * inversion IH; subst. constructor; [simpl; rewrite E; assumption|assumption]. }
  assert (L : forall (l : list string) x,
             Forall (fun p => PyStr.contains "/" p = false) l ->
             PyStr.index_last l = Some x -> PyStr.contains "/" x = false).
  { induction l as [|y l IH]; intros x HF HL; [discriminate|].
    inversion HF; subst. destruct l as [|z l'].
    - simpl in HL. injection HL as <-. assumption.
    - apply IH; assumption. }
  destruct (PyStr.index_last (PyStr.split "/" path)) as [seg|] eqn:E.
  - exact (L _ _ (G path) E).
  - destruct (PyStr.split "/" path) as [|y l] eqn:E2.
    + exfalso. exact (PyStrFacts.split_not_nil _ _ E2).
    + exfalso. clear -E. revert y E. induction l as [|z l IH]; intros y E.
      * discriminate.
      * exact (IH z E).
Qed.

(* ================================================================= *)
(** ** How the functions run *)

Section Runs.

Context {P : Platform}.
Local Open Scope list_scope.

Lemma after_nil (w : World) : after w (env w) [] = w.
Proof. destruct w; unfold after; simpl. rewrite app_nil_r. reflexivity. Qed.

Lemma after_after (w : World) e1 evs1 e2 evs2 :
  after (after w e1 evs1) e2 evs2 = after w e2 (evs1 ++ evs2).
Proof. unfold after; simpl. rewrite app_assoc. reflexivity. Qed.

Ltac run :=
  unfold try_except, bind, call, emit, exists_call, ret, after; cbv beta zeta.

Ltac tidy := repeat (rewrite <- app_assoc; simpl).

(** The listing succeeded: one record per row, nothing shown. *)
Lemma get_stage_files_listed (stage_name : string) (w : World) rows e' :
  sql_collect ("LIST @" ++ stage_name)%string (env w) = (Ok rows, e') ->
  get_stage_files stage_name w
  = (Ok (map file_record_of_row rows),
     after w e' [CallSql ("LIST @" ++ stage_name)%string]).
Proof. intros H. unfold get_stage_files. run. rewrite H. reflexivity. Qed.

(** The listing raised: the error is shown and the empty frame returned. *)
Lemma get_stage_files_raised (stage_name : string) (w : World) x e' :
  sql_collect ("LIST @" ++ stage_name)%string (env w) = (Raise x, e') ->
  get_stage_files stage_name w
  = (Ok [],
     after w e'
       [CallSql ("LIST @" ++ stage_name)%string;
        StError ("Error fetching files from stage " ++ stage_name
                 ++ ": " ++ str x)%string]).
Proof. intros H. unfold get_stage_files. run. rewrite H. simpl. tidy. reflexivity. Qed.

Lemma get_stages_list_listed (w : World) rows e' :
  sql_collect "SHOW STAGES" (env w) = (Ok rows, e') ->
  get_stages_list w = (Ok (map row_name rows), after w e' [CallSql "SHOW STAGES"]).
Proof. intros H. unfold get_stages_list. run. rewrite H. reflexivity. Qed.

(** The three ways through [download_file_from_stage]. *)
Lemma download_makedirs_raised stage_name file_path local_directory file_name w x e1 :
  os_makedirs local_directory (env w) = (Raise x, e1) ->
  download_file_from_stage stage_name file_path local_directory file_name w
  = (Ok false,
     after w e1
       [CallMakedirs local_directory;
        StError ("Error downloading file " ++ file_path ++ ": " ++ str x)%string]).
Proof.
  intros H. unfold download_file_from_stage. run. rewrite H. simpl. tidy. reflexivity.
Qed.

Lemma download_get_raised stage_name file_path local_directory file_name w u e1 x e2 :
  os_makedirs local_directory (env w) = (Ok u, e1) ->
  file_get ("@" ++ file_path)%string local_directory e1 = (Raise x, e2) ->
  download_file_from_stage stage_name file_path local_directory file_name w
  = (Ok false,
     after w e2
       [CallMakedirs local_directory;
        CallFileGet ("@" ++ file_path)%string local_directory;
        StError ("Error downloading file " ++ file_path ++ ": " ++ str x)%string]).
Proof.
  intros H1 H2. unfold download_file_from_stage. run. rewrite H1. simpl.
  simpl in H2. rewrite H2. simpl. tidy. reflexivity.
Qed.

Lemma download_get_returned stage_name file_path local_directory file_name w u e1 u' e2 :
  os_makedirs local_directory (env w) = (Ok u, e1) ->
  file_get ("@" ++ file_path)%string local_directory e1 = (Ok u', e2) ->
  download_file_from_stage stage_name file_path local_directory file_name w
  = (Ok (os_path_exists (os_path_join local_directory file_name) e2),
     after w e2
       ([CallMakedirs local_directory;
         CallFileGet ("@" ++ file_path)%string local_directory;
         CallExists (os_path_join local_directory file_name)]
        ++ if os_path_exists (os_path_join local_directory file_name) e2 then []
           else [StError ("File " ++ file_name
                          ++ " was not found after download")%string])).
Proof.
  intros H1 H2. unfold download_file_from_stage. run. rewrite H1. simpl.
  simpl in H2. rewrite H2. simpl.
  destruct (os_path_exists (os_path_join local_directory file_name) e2); simpl;
    tidy; reflexivity.
Qed.

(** [download_file_from_stage] always returns, and what it adds to the
    trace holds at most one fetch, of ["@" ++ file_path]. *)
Lemma download_returns stage_name file_path local_directory file_name w :
  exists b e evs,
    download_file_from_stage stage_name file_path local_directory file_name w
    = (Ok b, after w e evs)
    /\ Forall (fun ev => is_step ev = false) evs
    /\ Forall (fun ev => is_file_get ev = true ->
                         ev = CallFileGet ("@" ++ file_path)%string local_directory) evs
    /\ filter is_makedirs evs = [CallMakedirs local_directory].
Proof.
  destruct (os_makedirs local_directory (env w)) as [[u|x] e1] eqn:H1.
  - destruct (file_get ("@" ++ file_path)%string local_directory e1) as [[u'|x] e2] eqn:H2.
    + rewrite (download_get_returned _ _ _ _ _ _ _ _ _ H1 H2).
      eexists _, _, _. split; [reflexivity|].
      destruct (os_path_exists _ e2); simpl; repeat split;
        repeat constructor; simpl; intros; try discriminate; reflexivity.
    + rewrite (download_get_raised _ _ _ _ _ _ _ _ _ H1 H2).
      eexists _, _, _. split; [reflexivity|].
      repeat split; repeat constructor; simpl; intros; try discriminate; reflexivity.
  - rewrite (download_makedirs_raised _ _ _ _ _ _ _ H1).
    eexists _, _, _. split; [reflexivity|].
    repeat split; repeat constructor; simpl; intros; try discriminate; reflexivity.
Qed.

Lemma emit_run (ev : event) (w : World) : emit ev w = (Ok tt, after w (env w) [ev]).
Proof. reflexivity. Qed.

Lemma bind_ok {A B} (m : M A) (k : A -> M B) (w : World) a w' :
  m w = (Ok a, w') -> bind m k w = k a w'.
Proof. intros H. unfold bind. rewrite H. reflexivity. Qed.

(** One turn of the loop, given what the transfer returned. *)
Lemma loop_from_cons selected_stage download_folder idx r rest acc w b w1 :
  download_file_from_stage selected_stage (File_Path (shown r)) download_folder
    (File_Name (shown r))
    (after w (env w) [StatusText (Downloading (File_Name (shown r)))])
  = (Ok b, w1) ->
  download_loop_from selected_stage download_folder idx (r :: rest) acc w
  = download_loop_from selected_stage download_folder (S idx) rest
      (tally acc (File_Name (shown r)) b)
      (after w1 (env w1) [ProgressBar (progress_fraction idx (total_files acc))]).
Proof.
  intros H. simpl. unfold bind at 1. rewrite emit_run.
  unfold bind at 1. rewrite H. unfold bind at 1. rewrite emit_run. reflexivity.
Qed.

(** One turn of the loop along each way through the transfer. *)
Lemma loop_turn_fetched selected_stage download_folder idx r rest acc w u e1 u' e2 :
  os_makedirs download_folder (env w) = (Ok u, e1) ->
  file_get ("@" ++ File_Path (shown r))%string download_folder e1 = (Ok u', e2) ->
  os_path_exists (os_path_join download_folder (File_Name (shown r))) e2 = true ->
  download_loop_from selected_stage download_folder idx (r :: rest) acc w
  = download_loop_from selected_stage download_folder (S idx) rest
      (tally acc (File_Name (shown r)) true)
      (after w e2
         [StatusText (Downloading (File_Name (shown r)));
          CallMakedirs download_folder;
          CallFileGet ("@" ++ File_Path (shown r))%string download_folder;
          CallExists (os_path_join download_folder (File_Name (shown r)));
          ProgressBar (progress_fraction idx (total_files acc))]).
Proof.
  intros H1 H2 H3.
  rewrite (loop_from_cons _ _ _ _ _ _ _ _ _
             (download_get_returned selected_stage _ _ (File_Name (shown r))
                (after w (env w) [StatusText (Downloading (File_Name (shown r)))]) _ _ _ _ H1 H2)).
  rewrite H3, !after_after. reflexivity.
Qed.

Lemma loop_turn_missing selected_stage download_folder idx r rest acc w u e1 u' e2 :
  os_makedirs download_folder (env w) = (Ok u, e1) ->
  file_get ("@" ++ File_Path (shown r))%string download_folder e1 = (Ok u', e2) ->
  os_path_exists (os_path_join download_folder (File_Name (shown r))) e2 = false ->
  download_loop_from selected_stage download_folder idx (r :: rest) acc w
  = download_loop_from selected_stage download_folder (S idx) rest
      (tally acc (File_Name (shown r)) false)
      (after w e2
         [StatusText (Downloading (File_Name (shown r)));
          CallMakedirs download_folder;
          CallFileGet ("@" ++ File_Path (shown r))%string download_folder;
          CallExists (os_path_join download_folder (File_Name (shown r)));
          StError ("File " ++ File_Name (shown r)
                   ++ " was not found after download")%string;
          ProgressBar (progress_fraction idx (total_files acc))]).
Proof.
  intros H1 H2 H3.
  rewrite (loop_from_cons _ _ _ _ _ _ _ _ _
             (download_get_returned selected_stage _ _ (File_Name (shown r))
                (after w (env w) [StatusText (Downloading (File_Name (shown r)))]) _ _ _ _ H1 H2)).
  rewrite H3, !after_after. reflexivity.
Qed.

Lemma loop_turn_get_raised selected_stage download_folder idx r rest acc w u e1 x e2 :
  os_makedirs download_folder (env w) = (Ok u, e1) ->
  file_get ("@" ++ File_Path (shown r))%string download_folder e1 = (Raise x, e2) ->
  download_loop_from selected_stage download_folder idx (r :: rest) acc w
  = download_loop_from selected_stage download_folder (S idx) rest
      (tally acc (File_Name (shown r)) false)
      (after w e2
         [StatusText (Downloading (File_Name (shown r)));
          CallMakedirs download_folder;
          CallFileGet ("@" ++ File_Path (shown r))%string download_folder;
          StError ("Error downloading file " ++ File_Path (shown r)
                   ++ ": " ++ str x)%string;
          ProgressBar (progress_fraction idx (total_files acc))]).
Proof.
  intros H1 H2.
  rewrite (loop_from_cons _ _ _ _ _ _ _ _ _
             (download_get_raised selected_stage _ _ (File_Name (shown r))
                (after w (env w) [StatusText (Downloading (File_Name (shown r)))]) _ _ _ _ H1 H2)).
  rewrite !after_after. reflexivity.
Qed.

Lemma loop_turn_makedirs_raised selected_stage download_folder idx r rest acc w x e1 :
  os_makedirs download_folder (env w) = (Raise x, e1) ->
  download_loop_from selected_stage download_folder idx (r :: rest) acc w
  = download_loop_from selected_stage download_folder (S idx) rest
      (tally acc (File_Name (shown r)) false)
      (after w e1
         [StatusText (Downloading (File_Name (shown r)));
          CallMakedirs download_folder;
          StError ("Error downloading file " ++ File_Path (shown r)
                   ++ ": " ++ str x)%string;
          ProgressBar (progress_fraction idx (total_files acc))]).
Proof.
  intros H1.
  rewrite (loop_from_cons _ _ _ _ _ _ _ _ _
             (download_makedirs_raised selected_stage (File_Path (shown r)) _
                (File_Name (shown r))
                (after w (env w) [StatusText (Downloading (File_Name (shown r)))]) _ _ H1)).
  rewrite !after_after. reflexivity.
Qed.

Lemma filter_none {A} (f : A -> bool) (l : list A) :
  Forall (fun x => f x = false) l -> filter f l = [].
Proof.
  induction 1 as [|x l Hx _ IH]; simpl; [reflexivity|]. rewrite Hx. exact IH.
Qed.

(** The loop runs to its end whatever the transfers do: it returns the
    variables updated by one [tally] per row, in row order, and shows a
    status and a progress value per row. *)
Lemma loop_from_runs selected_stage download_folder rows :
  forall idx acc w,
  exists oks e evs,
    download_loop_from selected_stage download_folder idx rows acc w
    = (Ok {| success_count := success_count acc + length (picked true rows oks);
             total_files := total_files acc;
             downloaded_files := downloaded_files acc ++ picked true rows oks;
             failed_files := failed_files acc ++ picked false rows oks |},
       after w e evs)
    /\ length oks = length rows
    /\ filter is_step evs = expected_steps (total_files acc) idx rows
    /\ filter is_makedirs evs = repeat (CallMakedirs download_folder) (length rows).
Proof.
  induction rows as [|r rest IH]; intros idx acc w.
  - exists [], (env w), []. simpl. unfold ret. rewrite after_nil, !app_nil_r, Nat.add_0_r.
    destruct acc; simpl. repeat split; reflexivity.
  - set (w0 := after w (env w) [StatusText (Downloading (File_Name (shown r)))]).
    destruct (download_returns selected_stage (File_Path (shown r)) download_folder
                (File_Name (shown r)) w0) as (b & e1 & evs1 & Hrun & Hsteps & _ & Hmk).
    rewrite (loop_from_cons _ _ _ _ _ _ _ _ _ Hrun).
    destruct (IH (S idx) (tally acc (File_Name (shown r)) b)
                (after (after w0 e1 evs1) (env (after w0 e1 evs1))
                   [ProgressBar (progress_fraction idx (total_files acc))]))
      as (oks & e2 & evs2 & Hrest & Hlen & Hexp & Hmks).
    exists (b :: oks), e2,
      ([StatusText (Downloading (File_Name (shown r)))] ++ evs1
       ++ [ProgressBar (progress_fraction idx (total_files acc))] ++ evs2).
    split; [|split; [|split]].
    + rewrite Hrest. unfold w0. rewrite !after_after. f_equal.
      destruct b; simpl; rewrite <- ?app_assoc, <- ?Nat.add_assoc; reflexivity.
    + simpl. rewrite Hlen. reflexivity.
    + simpl. rewrite filter_app, (filter_none _ _ Hsteps). simpl.
      rewrite Hexp. destruct b; reflexivity.
    + simpl. rewrite filter_app, Hmk. simpl. rewrite Hmks. reflexivity.
Qed.

Lemma picked_length (rows : list display_row) :
  forall oks, length oks = length rows ->
  length (picked true rows oks) + length (picked false rows oks) = length rows.
Proof.
  induction rows as [|r rest IH]; intros [|[] oks] H; simpl in *; try discriminate;
    try reflexivity; injection H as H; specialize (IH oks H); lia.
Qed.

Lemma picked_permutation (rows : list display_row) :
  forall oks, length oks = length rows ->
  Permutation (picked true rows oks ++ picked false rows oks) (names_of rows).
Proof.
  induction rows as [|r rest IH]; intros [|[] oks] H; simpl in *; try discriminate.
  - constructor.
  - injection H as H. constructor. apply IH, H.
  - injection H as H. apply Permutation_sym, Permutation_cons_app, Permutation_sym.
    apply IH, H.
Qed.

(** One transfer returns along one of its four ways. *)
Lemma download_transfer selected_stage download_folder (r : display_row) (w : World) :
  exists b e seg,
    download_file_from_stage selected_stage (File_Path (shown r)) download_folder
      (File_Name (shown r)) w
    = (Ok b, after w e seg)
    /\ transfer_events download_folder r b seg.
Proof.
  destruct (os_makedirs download_folder (env w)) as [[u|x] e1] eqn:H1.
  - destruct (file_get ("@" ++ File_Path (shown r))%string download_folder e1)
      as [[u'|x] e2] eqn:H2.
    + rewrite (download_get_returned _ _ _ _ _ _ _ _ _ H1 H2).
      destruct (os_path_exists _ e2); eexists _, _, _; (split; [reflexivity|]);
        constructor.
    + rewrite (download_get_raised _ _ _ _ _ _ _ _ _ H1 H2).
      eexists _, _, _. split; [reflexivity|]. constructor.
  - rewrite (download_makedirs_raised _ _ _ _ _ _ _ H1).
    eexists _, _, _. split; [reflexivity|]. constructor.
Qed.

(** The trace of the loop is made of its turns, in row order. *)
Lemma loop_from_turns selected_stage download_folder rows :
  forall idx acc w,
  exists oks segs e,
    download_loop_from selected_stage download_folder idx rows acc w
    = (Ok {| success_count := success_count acc + length (picked true rows oks);
             total_files := total_files acc;
             downloaded_files := downloaded_files acc ++ picked true rows oks;
             failed_files := failed_files acc ++ picked false rows oks |},
       after w e (turns (total_files acc) idx rows segs))
    /\ length oks = length rows
    /\ length segs = length rows
    /\ Forall2 (fun r os => transfer_events download_folder r (fst os) (snd os))
         rows (combine oks segs).
Proof.
  induction rows as [|r rest IH]; intros idx acc w.
  - exists [], [], (env w). simpl. unfold ret. rewrite after_nil, !app_nil_r, Nat.add_0_r.
    destruct acc; simpl. repeat split; constructor.
  - set (w0 := after w (env w) [StatusText (Downloading (File_Name (shown r)))]).
    destruct (download_transfer selected_stage download_folder r w0)
      as (b & e1 & seg & Hrun & Hseg).
    rewrite (loop_from_cons _ _ _ _ _ _ _ _ _ Hrun).
    destruct (IH (S idx) (tally acc (File_Name (shown r)) b)
                (after (after w0 e1 seg) (env (after w0 e1 seg))
                   [ProgressBar (progress_fraction idx (total_files acc))]))
      as (oks & segs & e2 & Hrest & Hlen & Hlen' & Hall).
    exists (b :: oks), (seg :: segs), e2.
    split; [|split; [|split]].
    + rewrite Hrest. unfold w0. rewrite !after_after. f_equal.
      * destruct b; simpl; rewrite <- ?app_assoc, <- ?Nat.add_assoc; reflexivity.
      * f_equal. cbn [turns]. destruct b; simpl; rewrite <- ?app_assoc; reflexivity.
    + simpl. rewrite Hlen. reflexivity.
    + simpl. rewrite Hlen'. reflexivity.
    + simpl. constructor; [exact Hseg|exact Hall].
Qed.

(** The loop where the folder can be made and each file either arrives
    or fails, whatever happened before: every file is fetched, in row
    order, and exactly the failing files fail. *)
Lemma loop_from_isolated selected_stage download_folder
    (Inv : Env -> Prop) (fails : display_row -> bool) (rows : list display_row) :
  folder_can_be_made download_folder Inv ->
  Forall (arrives_unless download_folder Inv fails) rows ->
  forall idx acc w,
  Inv (env w) ->
  exists e evs,
    download_loop_from selected_stage download_folder idx rows acc w
    = (Ok {| success_count :=
               success_count acc + length (filter (fun r => negb (fails r)) rows);
             total_files := total_files acc;
             downloaded_files :=
               downloaded_files acc ++ names_of (filter (fun r => negb (fails r)) rows);
             failed_files := failed_files acc ++ names_of (filter fails rows) |},
       after w e evs)
    /\ Inv e
    /\ filter is_file_get evs = map (fetch_of download_folder) rows.
Proof.
  intros Hmk Hget. induction Hget as [|r rest Hr _ IH]; intros idx acc w Hw.
  - exists (env w), []. simpl. unfold ret. rewrite after_nil, !app_nil_r, Nat.add_0_r.
    destruct acc; simpl. repeat split. exact Hw.
  - destruct (Hmk _ Hw) as (e1 & M1 & I1).
    specialize (Hr e1 I1).
    cbn [filter map names_of]. destruct (fails r) eqn:Hf; cbn [negb].
    + destruct Hr as [(x & e2 & G & I2)|(e2 & G & I2 & X)].
      * rewrite (loop_turn_get_raised _ _ _ _ _ _ _ _ _ _ _ M1 G).
        match goal with
        | |- context [download_loop_from _ _ _ _ ?a ?w'] =>
            destruct (IH (S idx) a w' I2) as (e & evs & Hrun & Ie & Hfetch)
        end.
        rewrite Hrun, after_after. eexists _, _. split; [|split; [exact Ie|]].
        -- f_equal. f_equal; simpl; rewrite <- ?app_assoc; reflexivity.
        -- rewrite filter_app, Hfetch. reflexivity.
      * rewrite (loop_turn_missing _ _ _ _ _ _ _ _ _ _ _ M1 G X).
        match goal with
        | |- context [download_loop_from _ _ _ _ ?a ?w'] =>
            destruct (IH (S idx) a w' I2) as (e & evs & Hrun & Ie & Hfetch)
        end.
        rewrite Hrun, after_after. eexists _, _. split; [|split; [exact Ie|]].
        -- f_equal. f_equal; simpl; rewrite <- ?app_assoc; reflexivity.
        -- rewrite filter_app, Hfetch. reflexivity.
    + destruct Hr as (e2 & G & I2 & X).
      rewrite (loop_turn_fetched _ _ _ _ _ _ _ _ _ _ _ M1 G X).
      match goal with
      | |- context [download_loop_from _ _ _ _ ?a ?w'] =>
          destruct (IH (S idx) a w' I2) as (e & evs & Hrun & Ie & Hfetch)
      end.
      rewrite Hrun, after_after. eexists _, _. split; [|split; [exact Ie|]].
      * f_equal. f_equal; simpl; rewrite <- ?app_assoc, <- ?Nat.add_assoc; reflexivity.
      * rewrite filter_app, Hfetch. reflexivity.
Qed.

End Runs.

(* ================================================================= *)
(** ** What a trace shows *)

Lemma progress_values_filter (evs : list event) :
  progress_values (filter is_step evs) = progress_values evs.
Proof.
  induction evs as [|ev evs IH]; [reflexivity|].
  destruct ev; simpl; try exact IH. f_equal. exact IH.
Qed.

Lemma announced_filter (evs : list event) :
  announced (filter is_step evs) = announced evs.
Proof.
  induction evs as [|ev evs IH]; [reflexivity|].
  destruct ev as [| | | | | | | |s| |]; simpl; try exact IH.
  destruct s; simpl; try exact IH. f_equal. exact IH.
Qed.

Lemma progress_values_expected (n : nat) (rows : list display_row) :
  forall idx,
  progress_values (expected_steps n idx rows)
  = map (fun i => progress_fraction i n) (seq idx (length rows)).
Proof.
  induction rows as [|r rest IH]; intros idx; simpl; [reflexivity|].
  f_equal. apply IH.
Qed.

Lemma announced_expected (n : nat) (rows : list display_row) :
  forall idx, announced (expected_steps n idx rows) = names_of rows.
Proof.
  induction rows as [|r rest IH]; intros idx; simpl; [reflexivity|].
  f_equal. apply IH.
Qed.

(** Every value shown lies in [(0, 1]], the range the bar accepts. *)
Lemma progress_fraction_range (idx n : nat) :
  (idx < n)%nat -> (0 < progress_fraction idx n /\ progress_fraction idx n <= 1)%Q.
Proof.
  intros H. unfold progress_fraction, Qlt, Qle. simpl.
  rewrite !Z.mul_1_r. split; [lia|].
  rewrite <- (positive_nat_Z (Pos.of_nat n)), Nat2Pos.id by lia. lia.
Qed.

(* ================================================================= *)
(** ** The batch download *)

Section Batch.

Context {P : Platform}.
Local Open Scope list_scope.

(** C1. For every selection of [n] files, the download loop returns an
    outcome whose total is [n], whose success count is the number of
    names in the downloaded list, and in which succeeded plus failed is
    the total; the downloaded and failed lists together hold the
    selected names, each as often as it was selected. No file is left
    out, whatever the platform does. *)
Theorem download_loop_accounts_for_every_file
    (selected_stage download_folder : string) (selected_files : list display_row)
    (w : World) :
  exists o w',
    download_loop selected_stage download_folder selected_files w = (Ok o, w')
    /\ total_files o = length selected_files
    /\ success_count o = length (downloaded_files o)
    /\ success_count o + length (failed_files o) = total_files o
    /\ Permutation (downloaded_files o ++ failed_files o) (names_of selected_files).
Proof.
  destruct (loop_from_runs selected_stage download_folder selected_files 0
              {| success_count := 0; total_files := length selected_files;
                 downloaded_files := []; failed_files := [] |} w)
    as (oks & e & evs & Hrun & Hlen & _).
  eexists _, _. split; [exact Hrun|]. simpl.
  repeat split.
  - apply picked_length, Hlen.
  - apply picked_permutation, Hlen.
Qed.

(** C7. The loop handles the files strictly in selection order: what it
    adds to the trace is, for each selected file in turn, the
    announcement of the file, then the calls and messages of that
    file's own transfer, then the progress update [(i+1)/n]; nothing
    comes between the turns, and the outcome lists the names by the
    results of these transfers. So the values given to the bar over a
    batch are [1/n, 2/n, ..., n/n], each the quotient of [i+1] by [n]
    (the model keeps the two integers that Python divides), and the
    last one is 1. *)
Theorem download_loop_progress_sequence
    (selected_stage download_folder : string) (selected_files : list display_row)
    (w : World) :
  let n := length selected_files in
  exists o e evs oks segs,
    download_loop selected_stage download_folder selected_files w
    = (Ok o, after w e evs)
    /\ length oks = n
    /\ length segs = n
    /\ evs = turns n 0 selected_files segs
    /\ Forall2 (fun r os => transfer_events download_folder r (fst os) (snd os))
         selected_files (combine oks segs)
    /\ downloaded_files o = picked true selected_files oks
    /\ failed_files o = picked false selected_files oks
    /\ filter is_step evs = expected_steps n 0 selected_files
    /\ announced evs = names_of selected_files
    /\ progress_values evs = map (fun i => progress_fraction i n) (seq 0 n)
    /\ (forall i, (i < n)%nat ->
          Qnum (progress_fraction i n) = Z.of_nat (i + 1)
          /\ Z.pos (Qden (progress_fraction i n)) = Z.of_nat n)
    /\ (0 < n -> (progress_fraction (n - 1) n == 1)%Q).
Proof.
  intros n.
  destruct (loop_from_runs selected_stage download_folder selected_files 0
              {| success_count := 0; total_files := length selected_files;
                 downloaded_files := []; failed_files := [] |} w)
    as (oks0 & e0 & evs & Hrun0 & _ & Hsteps & _).
  destruct (loop_from_turns selected_stage download_folder selected_files 0
              {| success_count := 0; total_files := length selected_files;
                 downloaded_files := []; failed_files := [] |} w)
    as (oks & segs & e & Hrun & Hlen & Hlen' & Hall).
  simpl in Hsteps.
  assert (Hevs : evs = turns n 0 selected_files segs).
  { rewrite Hrun in Hrun0. injection Hrun0 as _ _ _ _ Htr.
    apply app_inv_head in Htr. symmetry. exact Htr. }
  exists {| success_count := 0 + length (picked true selected_files oks);
            total_files := n;
            downloaded_files := picked true selected_files oks;
            failed_files := picked false selected_files oks |}, e, evs, oks, segs.
  split; [rewrite Hevs; exact Hrun|].
  split; [exact Hlen|]. split; [exact Hlen'|]. split; [exact Hevs|].
  split; [exact Hall|]. split; [reflexivity|]. split; [reflexivity|].
  split; [exact Hsteps|]. split; [|split; [|split]].
  - rewrite <- announced_filter, Hsteps. apply announced_expected.
  - rewrite <- progress_values_filter, Hsteps. apply progress_values_expected.
  - intros i Hi. unfold progress_fraction. cbn [Qnum Qden]. split; [reflexivity|].
    rewrite <- (positive_nat_Z (Pos.of_nat n)), Nat2Pos.id by lia. reflexivity.
  - intros Hn. unfold progress_fraction, Qeq. simpl.
    rewrite Z.mul_1_r, <- (positive_nat_Z (Pos.of_nat n)), Nat2Pos.id by lia.
    replace (n - 1 + 1) with n by lia. lia.
Qed.

End Batch.

(* ================================================================= *)
(** ** Failures during a batch *)

Section Failures.

Context {P : Platform}.
Local Open Scope list_scope.

(** C2. A failed transfer does not stop the batch. For every selection
    the loop announces every selected file, in order, and starts one
    transfer per file (each begins with its [os.makedirs] call). For
    every selection and every set of failing files, where the folder
    can be made and each file either arrives or fails (its fetch
    raises, or leaves no file) whatever happened before it: the fetch
    is called once for every selected file, in selection order, the
    failed list is the failing files and the downloaded list all the
    others, each in selection order. In particular, with three files of
    which the fetch raises for the second only, while the first and
    third arrive, the outcome is total 3, succeeded 2, failed 1, the
    first and third names downloaded in that order and the second name
    failed, and the fetch was called for all three. *)
Theorem partial_failure_isolation (selected_stage download_folder : string) :
  (forall selected_files w,
     exists o e evs,
       download_loop selected_stage download_folder selected_files w
       = (Ok o, after w e evs)
       /\ announced evs = names_of selected_files
       /\ filter is_makedirs evs
          = repeat (CallMakedirs download_folder) (length selected_files))
  /\
  (forall (Inv : Env -> Prop) (fails : display_row -> bool) selected_files w,
     folder_can_be_made download_folder Inv ->
     Forall (arrives_unless download_folder Inv fails) selected_files ->
     Inv (env w) ->
     exists o e evs,
       download_loop selected_stage download_folder selected_files w
       = (Ok o, after w e evs)
       /\ filter is_file_get evs = map (fetch_of download_folder) selected_files
       /\ failed_files o = names_of (filter fails selected_files)
       /\ downloaded_files o
          = names_of (filter (fun r => negb (fails r)) selected_files)
       /\ success_count o
          = length (filter (fun r => negb (fails r)) selected_files)
       /\ total_files o = length selected_files)
  /\
  (forall f1 f2 f3 w e1 e2 e3 x e4 e5 e6,
     os_makedirs download_folder (env w) = (Ok tt, e1) ->
     file_get ("@" ++ File_Path (shown f1))%string download_folder e1 = (Ok tt, e2) ->
     os_path_exists (os_path_join download_folder (File_Name (shown f1))) e2 = true ->
     os_makedirs download_folder e2 = (Ok tt, e3) ->
     file_get ("@" ++ File_Path (shown f2))%string download_folder e3 = (Raise x, e4) ->
     os_makedirs download_folder e4 = (Ok tt, e5) ->
     file_get ("@" ++ File_Path (shown f3))%string download_folder e5 = (Ok tt, e6) ->
     os_path_exists (os_path_join download_folder (File_Name (shown f3))) e6 = true ->
     exists evs,
       download_loop selected_stage download_folder [f1; f2; f3] w
       = (Ok {| success_count := 2;
                total_files := 3;
                downloaded_files := [File_Name (shown f1); File_Name (shown f3)];
                failed_files := [File_Name (shown f2)] |},
          after w e6 evs)
       /\ filter is_file_get evs
          = [CallFileGet ("@" ++ File_Path (shown f1))%string download_folder;
             CallFileGet ("@" ++ File_Path (shown f2))%string download_folder;
             CallFileGet ("@" ++ File_Path (shown f3))%string download_folder]).
Proof.
  split; [|split].
  - intros selected_files w.
    destruct (loop_from_runs selected_stage download_folder selected_files 0
                {| success_count := 0; total_files := length selected_files;
                   downloaded_files := []; failed_files := [] |} w)
      as (oks & e & evs & Hrun & Hlen & Hsteps & Hmk).
    eexists _, e, evs. split; [exact Hrun|]. split; [|exact Hmk].
    rewrite <- announced_filter, Hsteps. apply announced_expected.
  - intros Inv fails selected_files w Hmk Hget Hw.
    destruct (loop_from_isolated selected_stage download_folder Inv fails
                selected_files Hmk Hget 0
                {| success_count := 0; total_files := length selected_files;
                   downloaded_files := []; failed_files := [] |} w Hw)
      as (e & evs & Hrun & _ & Hfetch).
    eexists _, e, evs. split; [exact Hrun|]. split; [exact Hfetch|].
    repeat split.
  - intros f1 f2 f3 w e1 e2 e3 x e4 e5 e6 M1 G1 X1 M2 G2 M3 G3 X3.
    unfold download_loop.
    rewrite (loop_turn_fetched _ _ _ _ _ _ _ _ _ _ _ M1 G1 X1).
    erewrite loop_turn_get_raised by (simpl; eassumption).
    erewrite loop_turn_fetched by (simpl; eassumption).
    simpl. unfold ret. rewrite !after_after.
    eexists. split; reflexivity.
Qed.

(** C4. Once the fetch has returned without raising, the result of
    [download_file_from_stage] is the result of [os.path.exists] on the
    destination directory joined with the file name, asked after the
    fetch; and when the file is not there the loop counts the transfer
    as failed: the name goes to the failed list and the success count
    stays. *)
Theorem missing_file_counts_as_failed
    (selected_stage download_folder : string) (w : World) (e1 e2 : Env) :
  os_makedirs download_folder (env w) = (Ok tt, e1) ->
  (forall file_path file_name,
     file_get ("@" ++ file_path)%string download_folder e1 = (Ok tt, e2) ->
     download_file_from_stage selected_stage file_path download_folder file_name w
     = (Ok (os_path_exists (os_path_join download_folder file_name) e2),
        after w e2
          ([CallMakedirs download_folder;
            CallFileGet ("@" ++ file_path)%string download_folder;
            CallExists (os_path_join download_folder file_name)]
           ++ if os_path_exists (os_path_join download_folder file_name) e2 then []
              else [StError ("File " ++ file_name
                             ++ " was not found after download")%string])))
  /\
  (forall idx r rest acc,
     file_get ("@" ++ File_Path (shown r))%string download_folder e1 = (Ok tt, e2) ->
     os_path_exists (os_path_join download_folder (File_Name (shown r))) e2 = false ->
     download_loop_from selected_stage download_folder idx (r :: rest) acc w
     = download_loop_from selected_stage download_folder (S idx) rest
         {| success_count := success_count acc;
            total_files := total_files acc;
            downloaded_files := downloaded_files acc;
            failed_files := failed_files acc ++ [File_Name (shown r)] |}
         (after w e2
            [StatusText (Downloading (File_Name (shown r)));
             CallMakedirs download_folder;
             CallFileGet ("@" ++ File_Path (shown r))%string download_folder;
             CallExists (os_path_join download_folder (File_Name (shown r)));
             StError ("File " ++ File_Name (shown r)
                      ++ " was not found after download")%string;
             ProgressBar (progress_fraction idx (total_files acc))])).
Proof.
  intros M1. split.
  - intros file_path file_name G1.
    exact (download_get_returned _ _ _ _ _ _ _ _ _ M1 G1).
  - intros idx r rest acc G1 X1.
    exact (loop_turn_missing _ _ _ _ _ _ _ _ _ _ _ M1 G1 X1).
Qed.

(** C9. The stage name given to [download_file_from_stage] has no
    effect: with any two stage names the function returns the same
    value in the same world, and every fetch it makes is of
    ["@" ++ file_path] into the local directory. *)
Theorem stage_name_is_ignored
    (stage_name1 stage_name2 file_path local_directory file_name : string)
    (w : World) :
  download_file_from_stage stage_name1 file_path local_directory file_name w
  = download_file_from_stage stage_name2 file_path local_directory file_name w
  /\ exists b e evs,
       download_file_from_stage stage_name1 file_path local_directory file_name w
       = (Ok b, after w e evs)
       /\ Forall (fun ev => is_file_get ev = true ->
                            ev = CallFileGet ("@" ++ file_path)%string local_directory)
                 evs.
Proof.
  split; [reflexivity|].
  destruct (download_returns stage_name1 file_path local_directory file_name w)
    as (b & e & evs & Hrun & _ & Hget & _).
  exists b, e, evs. split; assumption.
Qed.

End Failures.

(* ================================================================= *)
(** ** What [download_file_from_stage] catches *)

(** On calls that raise instances of [Exception] only, the function
    with the two kinds of exceptions is the function of the script's
    model. *)
Lemma signals_agree (P : Platform)
    (stage_name file_path local_directory file_name : string) (w : World) :
  Signals.download_file_from_stage (C := Signals.of_platform P)
    stage_name file_path local_directory file_name (env w, trace w)
  = (Signals.of_result
       (fst (download_file_from_stage stage_name file_path local_directory file_name w)),
     (env (snd (download_file_from_stage stage_name file_path local_directory
                  file_name w)),
      trace (snd (download_file_from_stage stage_name file_path local_directory
                    file_name w)))).
Proof.
  unfold Signals.download_file_from_stage, Signals.try_except, Signals.bind,
    Signals.call, Signals.ret.
  cbn [fst snd Signals.makedirs Signals.get Signals.path_exists Signals.st_error
       Signals.of_platform].
  destruct (os_makedirs local_directory (env w)) as [[u|x] e1] eqn:H1.
  - destruct (file_get ("@" ++ file_path)%string local_directory e1)
      as [[u'|x] e2] eqn:H2.
    + rewrite (download_get_returned _ _ _ _ _ _ _ _ _ H1 H2).
      cbn [fst snd Signals.of_result]. rewrite H2. cbn [fst snd Signals.of_result].
      destruct (os_path_exists (os_path_join local_directory file_name) e2);
        cbn [fst snd Signals.of_result after env trace];
        rewrite <- ?app_assoc; reflexivity.
    + rewrite (download_get_raised _ _ _ _ _ _ _ _ _ H1 H2).
      cbn [fst snd Signals.of_result]. rewrite H2.
      cbn [fst snd Signals.of_result after env trace].
      rewrite <- ?app_assoc. reflexivity.
  - rewrite (download_makedirs_raised _ _ _ _ _ _ _ H1).
    cbn [fst snd Signals.of_result after env trace].
    rewrite <- ?app_assoc. reflexivity.
Qed.

Section Caught.

Context {C : Signals.Calls}.
Local Open Scope list_scope.

Import Signals.

(** C10, as the code has it. [download_file_from_stage] returns a
    boolean, and [False] after an exception of [os.makedirs] or of the
    fetch, as long as the calls raise instances of [Exception] only and
    [st.error] returns: the exception is caught, shown with [st.error]
    and turned into [False]. It is not total: an exception from outside
    [Exception] raised by [os.makedirs], by the fetch or by
    [os.path.exists] passes the handler and reaches the caller, and so
    does whatever [st.error] raises inside the handler. *)
Theorem download_file_from_stage_catches_exceptions_only
    (stage_name file_path local_directory file_name : string)
    (w : State * list event) :
  ((forall path s, catchable (fst (makedirs path s))) ->
   (forall stage_file_path target s, catchable (fst (get stage_file_path target s))) ->
   (forall path s, catchable (fst (path_exists path s))) ->
   (forall msg s, exists s', st_error msg s = (Returns tt, s')) ->
   exists b w',
     Signals.download_file_from_stage stage_name file_path local_directory file_name w
     = (Returns b, w')
     /\ (forall x s1,
           makedirs local_directory (fst w) = (Raises (InstanceOfException x), s1) ->
           b = false)
     /\ (forall s1 x s2,
           makedirs local_directory (fst w) = (Returns tt, s1) ->
           get ("@" ++ file_path)%string local_directory s1
           = (Raises (InstanceOfException x), s2) ->
           b = false))
  /\
  (forall x s1 s2,
     makedirs local_directory (fst w) = (Raises (InstanceOfException x), s1) ->
     st_error ("Error downloading file " ++ file_path ++ ": " ++ str x)%string s1
     = (Returns tt, s2) ->
     Signals.download_file_from_stage stage_name file_path local_directory file_name w
     = (Returns false,
        (s2, snd w ++ [CallMakedirs local_directory;
                       StError ("Error downloading file " ++ file_path ++ ": "
                                ++ str x)%string])))
  /\
  (forall s1 x s2 s3,
     makedirs local_directory (fst w) = (Returns tt, s1) ->
     get ("@" ++ file_path)%string local_directory s1
     = (Raises (InstanceOfException x), s2) ->
     st_error ("Error downloading file " ++ file_path ++ ": " ++ str x)%string s2
     = (Returns tt, s3) ->
     Signals.download_file_from_stage stage_name file_path local_directory file_name w
     = (Returns false,
        (s3, snd w ++ [CallMakedirs local_directory;
                       CallFileGet ("@" ++ file_path)%string local_directory;
                       StError ("Error downloading file " ++ file_path ++ ": "
                                ++ str x)%string])))
  /\
  (forall c s1,
     makedirs local_directory (fst w) = (Raises (OutsideException c), s1) ->
     Signals.download_file_from_stage stage_name file_path local_directory file_name w
     = (Raises (OutsideException c), (s1, snd w ++ [CallMakedirs local_directory])))
  /\
  (forall s1 c s2,
     makedirs local_directory (fst w) = (Returns tt, s1) ->
     get ("@" ++ file_path)%string local_directory s1
     = (Raises (OutsideException c), s2) ->
     Signals.download_file_from_stage stage_name file_path local_directory file_name w
     = (Raises (OutsideException c),
        (s2, snd w ++ [CallMakedirs local_directory;
                       CallFileGet ("@" ++ file_path)%string local_directory])))
  /\
  (forall s1 s2 c s3,
     makedirs local_directory (fst w) = (Returns tt, s1) ->
     get ("@" ++ file_path)%string local_directory s1 = (Returns tt, s2) ->
     path_exists (os_path_join local_directory file_name) s2
     = (Raises (OutsideException c), s3) ->
     Signals.download_file_from_stage stage_name file_path local_directory file_name w
     = (Raises (OutsideException c),
        (s3, snd w ++ [CallMakedirs local_directory;
                       CallFileGet ("@" ++ file_path)%string local_directory;
                       CallExists (os_path_join local_directory file_name)])))
  /\
  (forall x s1 r s2,
     makedirs local_directory (fst w) = (Raises (InstanceOfException x), s1) ->
     st_error ("Error downloading file " ++ file_path ++ ": " ++ str x)%string s1
     = (Raises r, s2) ->
     Signals.download_file_from_stage stage_name file_path local_directory file_name w
     = (Raises r,
        (s2, snd w ++ [CallMakedirs local_directory;
                       StError ("Error downloading file " ++ file_path ++ ": "
                                ++ str x)%string]))).
Proof.
  unfold download_file_from_stage, try_except, bind, call, ret. cbv zeta.
  split; [|split; [|split; [|split; [|split; [|split]]]]].
  - intros Hmk Hget Hex Herr.
    pose proof (Hmk local_directory (fst w)) as Cm.
    destruct (makedirs local_directory (fst w)) as [[[]|[x|c]] s1] eqn:H1;
      cbn [fst snd] in *; [| |contradiction].
    + pose proof (Hget ("@" ++ file_path)%string local_directory s1) as Cg.
      destruct (get ("@" ++ file_path)%string local_directory s1)
        as [[[]|[x|c]] s2] eqn:H2; cbn [fst snd] in *; [| |contradiction].
      * pose proof (Hex (os_path_join local_directory file_name) s2) as Cx.
        destruct (path_exists (os_path_join local_directory file_name) s2)
          as [[found|[x|c]] s3] eqn:H3; cbn [fst snd] in *; [| |contradiction].
        -- destruct found; cbn [fst snd].
           ++ eexists _, _. split; [reflexivity|]. split.
              ** intros x s1' E. discriminate E.
              ** intros s1' x s2' E G. injection E as <-. rewrite H2 in G.
                 discriminate G.
           ++ destruct (Herr ("File " ++ file_name
                              ++ " was not found after download")%string s3)
                as (s4 & ->).
              eexists _, _. split; [reflexivity|]. split; reflexivity.
        -- destruct (Herr ("Error downloading file " ++ file_path ++ ": "
                           ++ str x)%string s3) as (s4 & ->).
           eexists _, _. split; [reflexivity|]. split; reflexivity.
      * destruct (Herr ("Error downloading file " ++ file_path ++ ": "
                        ++ str x)%string s2) as (s4 & ->).
        eexists _, _. split; [reflexivity|]. split; reflexivity.
    + destruct (Herr ("Error downloading file " ++ file_path ++ ": "
                      ++ str x)%string s1) as (s4 & ->).
      eexists _, _. split; [reflexivity|]. split; reflexivity.
  - intros x s1 s2 H1 H2. rewrite H1. cbn [fst snd]. rewrite H2.
    cbn [fst snd]. rewrite <- !app_assoc. reflexivity.
  - intros s1 x s2 s3 H1 H2 H3. rewrite H1. cbn [fst snd]. rewrite H2.
    cbn [fst snd]. rewrite H3. cbn [fst snd]. rewrite <- !app_assoc. reflexivity.
  - intros c s1 H1. rewrite H1. reflexivity.
  - intros s1 c s2 H1 H2. rewrite H1. cbn [fst snd]. rewrite H2.
    cbn [fst snd]. rewrite <- !app_assoc. reflexivity.
  - intros s1 s2 c s3 H1 H2 H3. rewrite H1. cbn [fst snd]. rewrite H2.
    cbn [fst snd]. rewrite H3. cbn [fst snd]. rewrite <- !app_assoc. reflexivity.
  - intros x s1 r s2 H1 H2. rewrite H1. cbn [fst snd]. rewrite H2.
    cbn [fst snd]. rewrite <- !app_assoc. destruct r; reflexivity.
Qed.

End Caught.

(* ================================================================= *)
(** ** The destination directory *)

Section Destination.

Context {P : Platform}.
Local Open Scope list_scope.

(** Connecting makes no fetch. *)
Lemma init_session_runs (w : World) :
  exists b w1 evs,
    init_session w = (Ok b, w1)
    /\ trace w1 = trace w ++ evs
    /\ filter is_file_get evs = [].
Proof.
  unfold init_session, get_session_in_state, bind at 1.
  destruct (session_in_state w) eqn:Hs; simpl.
  - eexists _, _, [_]. unfold bind, emit, ret. simpl. repeat split.
  - unfold try_except, create_snowflake_session, bind, call, set_session_in_state,
      emit, ret. simpl.
    destruct (session_create (env w)) as [[u|x] e1]; simpl.
    + eexists _, _, [_; _]. split; [reflexivity|]. simpl.
      rewrite <- app_assoc. split; reflexivity.
    + eexists _, _, [_; _]. split; [reflexivity|]. simpl.
      rewrite <- app_assoc. split; reflexivity.
Qed.

(** The validation of a non-empty folder that cannot be created. *)
Lemma validate_raised (download_folder : string) (w : World) x e1 :
  download_folder <> ""%string ->
  os_makedirs download_folder (env w) = (Raise x, e1) ->
  validate_download_folder download_folder w
  = (Ok false,
     after w e1 [CallMakedirs download_folder; Markdown (InvalidFolder (str x))]).
Proof.
  intros Hne H. unfold validate_download_folder.
  destruct (String.eqb_spec download_folder ""%string) as [E|_]; [contradiction|].
  simpl. unfold try_except, bind, call, emit, ret, after. rewrite H. simpl.
  rewrite <- app_assoc. reflexivity.
Qed.

(** When no directory can be made, every transfer fails before its
    fetch. *)
Lemma loop_without_directory selected_stage download_folder rows :
  (forall e, exists x e', os_makedirs download_folder e = (Raise x, e')) ->
  forall idx acc w,
  exists e evs,
    download_loop_from selected_stage download_folder idx rows acc w
    = (Ok {| success_count := success_count acc;
             total_files := total_files acc;
             downloaded_files := downloaded_files acc;
             failed_files := failed_files acc ++ names_of rows |},
       after w e evs)
    /\ filter is_file_get evs = [].
Proof.
  intros Hmk. induction rows as [|r rest IH]; intros idx acc w.
  - exists (env w), []. simpl. unfold ret. rewrite after_nil, app_nil_r.
    destruct acc; split; reflexivity.
  - destruct (Hmk (env w)) as (x & e1 & H1).
    rewrite (loop_turn_makedirs_raised _ _ _ _ _ _ _ _ _ H1).
    match goal with |- context [download_loop_from _ _ _ _ ?a ?v] =>
      destruct (IH (S idx) a v) as (e & evs & Hrun & Hget) end.
    rewrite Hrun, after_after. eexists _, _. split.
    + simpl. rewrite <- app_assoc. reflexivity.
    + simpl. exact Hget.
Qed.

(** C3, as the code has it. When the download folder is a non-empty
    string and [os.makedirs] raises for it in the validation of [main],
    [main] shows the invalid-folder message and returns there: no
    listing, no fetch, no outcome. When [os.makedirs] raises inside a
    transfer, that transfer makes no fetch and returns [False]; and when
    it raises for every transfer the batch makes no fetch at all and
    ends with an outcome in which every selected file has failed. *)
Theorem destination_failure :
  (forall inp w w1 x e1,
     download_folder inp <> ""%string ->
     init_session w = (Ok true, w1) ->
     os_makedirs (download_folder inp) (env w1) = (Raise x, e1) ->
     main inp w
     = (Ok ReturnedInvalidFolder,
        after w1 e1 [CallMakedirs (download_folder inp);
                     Markdown (InvalidFolder (str x))])
     /\ filter is_file_get
          (trace (after w1 e1 [CallMakedirs (download_folder inp);
                               Markdown (InvalidFolder (str x))]))
        = filter is_file_get (trace w))
  /\
  (forall stage_name file_path local_directory file_name w x e1,
     os_makedirs local_directory (env w) = (Raise x, e1) ->
     download_file_from_stage stage_name file_path local_directory file_name w
     = (Ok false,
        after w e1
          [CallMakedirs local_directory;
           StError ("Error downloading file " ++ file_path ++ ": " ++ str x)%string]))
  /\
  (forall selected_stage download_folder selected_files w,
     (forall e, exists x e', os_makedirs download_folder e = (Raise x, e')) ->
     exists e evs,
       download_loop selected_stage download_folder selected_files w
       = (Ok {| success_count := 0;
                total_files := length selected_files;
                downloaded_files := [];
                failed_files := names_of selected_files |},
          after w e evs)
       /\ filter is_file_get evs = []).
Proof.
  split; [|split].
  - intros inp w w1 x e1 Hne Hinit Hmk.
    unfold main, bind at 1. rewrite Hinit. simpl.
    unfold bind at 1. rewrite (validate_raised _ _ _ _ Hne Hmk). simpl.
    split; [reflexivity|].
    destruct (init_session_runs w) as (b & w1' & evs & Hrun & Htr & Hget).
    rewrite Hinit in Hrun. injection Hrun as _ <-.
    rewrite Htr, !filter_app, Hget. simpl. rewrite !app_nil_r. reflexivity.
  - intros. apply download_makedirs_raised. assumption.
  - intros selected_stage download_folder selected_files w Hmk.
    exact (loop_without_directory selected_stage download_folder selected_files Hmk 0
             {| success_count := 0; total_files := length selected_files;
                downloaded_files := []; failed_files := [] |} w).
Qed.

End Destination.

(* ================================================================= *)
(** ** The catalog reader *)

Lemma lower_char_not_upper (a : ascii) : PyStr.is_upper (PyStr.lower_char a) = false.
Proof. destruct a as [[] [] [] [] [] [] [] []]; reflexivity. Qed.

Lemma lower_has_no_upper (s : string) :
  forallb (fun a => negb (PyStr.is_upper a)) (list_ascii_of_string (PyStr.lower s)) = true.
Proof.
  induction s as [|a r IH]; simpl; [reflexivity|].
  rewrite lower_char_not_upper. exact IH.
Qed.

Lemma derive_file_type_has_no_upper (name : string) :
  forallb (fun a => negb (PyStr.is_upper a))
    (list_ascii_of_string (derive_file_type name)) = true.
Proof.
  unfold derive_file_type. destruct (PyStr.contains "." name); [|reflexivity].
  destruct (PyStr.index_last (PyStr.split "." name)); [|reflexivity].
  apply lower_has_no_upper.
Qed.

Section Catalog.

Context {P : Platform}.
Local Open Scope list_scope.

(** C5. The type of a listed file is the lower-case form of what
    follows the last ['.'] of its name, and ["unknown"] for a name
    without ['.']; it holds no upper-case letter. Every record that
    [get_stage_files] builds has this type for its name.
    ["report.CSV"] gives ["csv"], ["README"] gives ["unknown"]. *)
Theorem file_type_is_lowercase_extension :
  (forall pre suf,
     PyStr.contains "." suf = false ->
     derive_file_type (pre ++ "." ++ suf)%string = PyStr.lower suf)
  /\ (forall name,
        PyStr.contains "." name = false -> derive_file_type name = "unknown"%string)
  /\ (forall name,
        forallb (fun a => negb (PyStr.is_upper a))
          (list_ascii_of_string (derive_file_type name)) = true)
  /\ (forall stage_name w,
        exists df w',
          get_stage_files stage_name w = (Ok df, w')
          /\ Forall (fun r => File_Type r = derive_file_type (File_Name r)) df)
  /\ derive_file_type "report.CSV" = "csv"%string
  /\ derive_file_type "README" = "unknown"%string.
Proof.
  split; [exact derive_file_type_after_dot|].
  split; [exact derive_file_type_no_dot|].
  split; [exact derive_file_type_has_no_upper|].
  split; [|split; reflexivity].
  intros stage_name w.
  destruct (sql_collect ("LIST @" ++ stage_name)%string (env w)) as [[rows|x] e'] eqn:H.
  - rewrite (get_stage_files_listed _ _ _ _ H). eexists _, _. split; [reflexivity|].
    apply Forall_forall. intros r Hr. apply in_map_iff in Hr.
    destruct Hr as (row & <- & _). reflexivity.
  - rewrite (get_stage_files_raised _ _ _ _ H). eexists _, _. split; [reflexivity|].
    constructor.
Qed.

(** C6. The name of a listed file is what follows the last ['/'] of its
    stage path, and the whole path when it has no ['/']; the name holds
    no ['/']. [get_stage_files] builds one record per row of the
    listing, in order, with the row's path and the name derived from it.
    ["prefix1/test2.csv"] and ["test2.csv"] both give ["test2.csv"]. *)
Theorem file_name_is_last_path_segment :
  (forall pre suf,
     PyStr.contains "/" suf = false ->
     derive_file_name (pre ++ "/" ++ suf)%string = suf)
  /\ (forall path,
        PyStr.contains "/" path = false -> derive_file_name path = path)
  /\ (forall path, PyStr.contains "/" (derive_file_name path) = false)
  /\ (forall stage_name w rows e',
        sql_collect ("LIST @" ++ stage_name)%string (env w) = (Ok rows, e') ->
        exists df w',
          get_stage_files stage_name w = (Ok df, w')
          /\ map File_Path df = map row_name rows
          /\ map File_Name df = map (fun row => derive_file_name (row_name row)) rows)
  /\ derive_file_name "prefix1/test2.csv" = "test2.csv"%string
  /\ derive_file_name "test2.csv" = "test2.csv"%string.
Proof.
  split; [exact derive_file_name_after_sep|].
  split; [exact derive_file_name_no_sep|].
  split; [exact derive_file_name_no_slash|].
  split; [|split; reflexivity].
  intros stage_name w rows e' H.
  rewrite (get_stage_files_listed _ _ _ _ H). eexists _, _. split; [reflexivity|].
  rewrite !map_map. split; reflexivity.
Qed.

(** C8, as the code has it. [get_stage_files] returns the empty frame,
    and shows nothing, when the listing is empty. When the listing
    query raises, [get_stage_files] raises nothing: it shows the error
    with [st.error] and returns the same empty frame. In both cases
    [main] shows the no-files message and returns, without selection or
    download; the two runs differ by the error message only. *)
Theorem listing_failure_returns_empty_frame (stage_name : string) :
  (forall w e',
     sql_collect ("LIST @" ++ stage_name)%string (env w) = (Ok [], e') ->
     get_stage_files stage_name w
     = (Ok [], after w e' [CallSql ("LIST @" ++ stage_name)%string]))
  /\
  (forall w x e',
     sql_collect ("LIST @" ++ stage_name)%string (env w) = (Raise x, e') ->
     get_stage_files stage_name w
     = (Ok [],
        after w e'
          [CallSql ("LIST @" ++ stage_name)%string;
           StError ("Error fetching files from stage " ++ stage_name
                    ++ ": " ++ str x)%string]))
  /\
  (forall inp w0 w1 w2 stage_rows e3,
     init_session w0 = (Ok true, w1) ->
     validate_download_folder (download_folder inp) w1 = (Ok true, w2) ->
     sql_collect "SHOW STAGES" (env w2) = (Ok stage_rows, e3) ->
     nth_error (map row_name stage_rows) (stage_choice inp) = Some stage_name ->
     stage_name <> ""%string ->
     (forall e4,
        sql_collect ("LIST @" ++ stage_name)%string e3 = (Ok [], e4) ->
        main inp w0
        = (Ok ReturnedNoFiles,
           after w2 e4
             [CallSql "SHOW STAGES";
              Markdown (StageCount (length stage_rows));
              CallSql ("LIST @" ++ stage_name)%string;
              Markdown NoFilesFound]))
     /\
     (forall x e4,
        sql_collect ("LIST @" ++ stage_name)%string e3 = (Raise x, e4) ->
        main inp w0
        = (Ok ReturnedNoFiles,
           after w2 e4
             [CallSql "SHOW STAGES";
              Markdown (StageCount (length stage_rows));
              CallSql ("LIST @" ++ stage_name)%string;
              StError ("Error fetching files from stage " ++ stage_name
                       ++ ": " ++ str x)%string;
              Markdown NoFilesFound]))).
Proof.
  split; [|split].
  - intros w e' H. rewrite (get_stage_files_listed _ _ _ _ H). reflexivity.
  - intros w x e' H. apply get_stage_files_raised, H.
  - intros inp w0 w1 w2 stage_rows e3 Hinit Hval Hstages Hnth Hne.
    assert (Hmain : forall r w4,
              get_stage_files stage_name
                (after w2 e3 [CallSql "SHOW STAGES";
                              Markdown (StageCount (length stage_rows))])
              = (Ok [], w4) ->
              r = (Ok ReturnedNoFiles, after w4 (env w4) [Markdown NoFilesFound]) ->
              main inp w0 = r).
    { intros r w4 Hfiles ->.
      unfold main. rewrite (bind_ok _ _ _ _ _ Hinit). cbn [negb].
      rewrite (bind_ok _ _ _ _ _ Hval). cbn [negb].
      unfold browse_and_download.
      rewrite (bind_ok _ _ _ _ _ (get_stages_list_listed _ _ _ Hstages)). cbv beta.
      assert (Hemp : is_empty (map row_name stage_rows) = false).
      { destruct (map row_name stage_rows); [|reflexivity].
        destruct (stage_choice inp); discriminate. }
      rewrite Hemp. cbv zeta.
      rewrite (bind_ok _ _ _ _ _ (emit_run _ _)). cbv beta.
      rewrite Hnth. unfold truthy.
      destruct (String.eqb_spec stage_name ""%string) as [E|_]; [contradiction|].
      cbn [negb].
      rewrite after_after, length_map. simpl app.
      rewrite (bind_ok _ _ _ _ _ Hfiles). cbn [is_empty].
      rewrite (bind_ok _ _ _ _ _ (emit_run _ _)). reflexivity. }
    split.
    + intros e4 H. eapply Hmain.
      * exact (get_stage_files_listed stage_name (after w2 e3 _) [] e4 H).
      * rewrite !after_after. reflexivity.
    + intros x e4 H. eapply Hmain.
      * exact (get_stage_files_raised stage_name (after w2 e3 _) x e4 H).
      * rewrite !after_after. reflexivity.
Qed.

End Catalog.

(* ================================================================= *)
(** ** The loop inside [main] *)

Section MainLoop.

Context {P : Platform}.
Local Open Scope list_scope.

Lemma show_final_status_returns (download_folder : string) (o : DownloadOutcome)
    (w : World) :
  exists w', show_final_status download_folder o w = (Ok tt, w').
Proof.
  unfold show_final_status.
  destruct (0 <? success_count o)%nat; [|eexists; reflexivity].
  destruct (is_empty (downloaded_files o)), (is_empty (failed_files o));
    eexists; reflexivity.
Qed.

(** [main] reports an outcome only after the button was pressed, and
    the outcome is that of the loop run on a non-empty selection of
    rows, all of them ticked. *)
Lemma main_download_runs_the_loop (inp : Inputs) (w : World) o w' :
  main inp w = (Ok (EndedDownload o), w') ->
  start_download inp = true
  /\ exists stage selected_files w1 w2,
       selected_files <> []
       /\ forallb Select selected_files = true
       /\ download_loop stage (download_folder inp) selected_files w1 = (Ok o, w2).
Proof.
  unfold main, browse_and_download, bind.
  destruct (init_session w) as [[[]|x] w1]; cbn [negb]; try discriminate.
  destruct (validate_download_folder (download_folder inp) w1) as [[[]|x] w2];
    cbn [negb]; try discriminate.
  destruct (get_stages_list w2) as [[stages|x] w3]; try discriminate.
  destruct (is_empty stages); try discriminate.
  cbv zeta. rewrite emit_run.
  destruct (nth_error stages (stage_choice inp)) as [stage|]; try discriminate.
  destruct (negb (truthy (Some stage))); try discriminate.
  destruct (get_stage_files stage _) as [[files_df|x] w4]; try discriminate.
  destruct (is_empty files_df); try discriminate.
  rewrite emit_run.
  set (sel := filter Select
                (data_editor (edits inp) (display_frame (select_all inp) files_df))).
  destruct (0 <? length sel)%nat eqn:Hlen; rewrite emit_run; try discriminate.
  destruct (start_download inp); try discriminate.
  rewrite !emit_run.
  match goal with |- context [download_loop stage (download_folder inp) sel ?v] =>
    destruct (download_loop stage (download_folder inp) sel v) as [[o'|x] w5] eqn:Hloop
  end; try discriminate.
  destruct (show_final_status_returns (download_folder inp) o' w5) as (w6 & ->).
  intros H. injection H as <- _.
  split; [reflexivity|]. eexists stage, sel, _, _. split; [|split; [|exact Hloop]].
  - intros E. rewrite E in Hlen. discriminate.
  - unfold sel. apply forallb_forall. intros r Hr. apply filter_In in Hr. apply Hr.
Qed.

(** The outcome that [main] reports counts at least one file, and
    every file once. *)
Lemma main_outcome_accounting (inp : Inputs) (w : World) o w' :
  main inp w = (Ok (EndedDownload o), w') ->
  (0 < total_files o)%nat
  /\ success_count o = length (downloaded_files o)
  /\ success_count o + length (failed_files o) = total_files o.
Proof.
  intros H. destruct (main_download_runs_the_loop _ _ _ _ H)
    as (_ & stage & sel & w1 & w2 & Hne & _ & Hloop).
  destruct (loop_from_runs stage (download_folder inp) sel 0
              {| success_count := 0; total_files := length sel;
                 downloaded_files := []; failed_files := [] |} w1)
    as (oks & e & evs & Hrun & Hlen & _).
  unfold download_loop in Hloop. rewrite Hrun in Hloop. injection Hloop as <- _.
  simpl. split; [|split].
  - destruct sel; [contradiction|simpl; lia].
  - reflexivity.
  - apply picked_length, Hlen.
Qed.

End MainLoop.

(* ================================================================= *)
(** ** The script run on the small platform *)

Module OnToy.

Import Toy.
Local Open Scope list_scope.

Example format_thousands_ex :
  PyStr.format_thousands 1234567 = "1,234,567"%string
  /\ PyStr.format_thousands 0 = "0"%string
  /\ PyStr.format_thousands 999 = "999"%string
  /\ PyStr.format_thousands 1000 = "1,000"%string.
Proof. repeat split; reflexivity. Qed.

Example derive_ex :
  derive_file_name "a/b/c.tar.GZ" = "c.tar.GZ"%string
  /\ derive_file_type "c.tar.GZ" = "gz"%string
  /\ derive_file_type "trailing." = ""%string
  /\ derive_file_type ".bashrc" = "bashrc"%string.
Proof. repeat split; reflexivity. Qed.

Example os_path_join_ex :
  os_path_join "/tmp/dl" "a.csv" = "/tmp/dl/a.csv"%string
  /\ os_path_join "/tmp/dl/" "a.csv" = "/tmp/dl/a.csv"%string
  /\ os_path_join "" "a.csv" = "a.csv"%string.
Proof. repeat split; reflexivity. Qed.

Example listing_ex :
  fst (get_stage_files "DATA" world0)
  = Ok [ {| File_Name := "a.csv"; File_Size := "10 bytes"; File_Type := "csv";
            Last_Modified := "2024-01-01"; File_Path := "data/a.csv" |};
         {| File_Name := "b.JSON"; File_Size := "2,048 bytes"; File_Type := "json";
            Last_Modified := "2024-01-01"; File_Path := "data/sub/b.JSON" |};
         {| File_Name := "README"; File_Size := "7 bytes"; File_Type := "unknown";
            Last_Modified := "2024-01-01"; File_Path := "data/README" |} ].
Proof. reflexivity. Qed.

(** A whole run of [main]: everything selected, the button pressed. *)
Example main_run_ex :
  fst (main (download_all "/tmp/dl" 0) world0)
  = Ok (EndedDownload {| success_count := 2; total_files := 3;
                         downloaded_files := ["a.csv"; "README"]%string;
                         failed_files := ["b.JSON"]%string |})
  /\ progress_values (trace (snd (main (download_all "/tmp/dl" 0) world0)))
     = [Qmake 1 3; Qmake 2 3; Qmake 3 3].
Proof. split; vm_compute; reflexivity. Qed.

(** C2 on the small platform: the second of three files cannot be
    fetched; and of five files the first and the third cannot. *)
Lemma partial_failure_isolation_witness :
  (exists e evs,
     download_loop "DATA" "/tmp/dl" three_files world0
     = (Ok {| success_count := 2; total_files := 3;
              downloaded_files := ["a.csv"; "README"]%string;
              failed_files := ["b.JSON"]%string |},
        after world0 e evs))
  /\
  (exists o e evs,
     download_loop "DATA" "/tmp/dl"
       [row "data/sub/b.JSON"; row "data/a.csv"; row "data/sub/b.JSON";
        row "data/README"; row "data/a.csv"] world0
     = (Ok o, after world0 e evs)
     /\ filter is_file_get evs
        = [CallFileGet "@data/sub/b.JSON" "/tmp/dl";
           CallFileGet "@data/a.csv" "/tmp/dl";
           CallFileGet "@data/sub/b.JSON" "/tmp/dl";
           CallFileGet "@data/README" "/tmp/dl";
           CallFileGet "@data/a.csv" "/tmp/dl"]
     /\ failed_files o = ["b.JSON"; "b.JSON"]%string
     /\ downloaded_files o = ["a.csv"; "README"; "a.csv"]%string).
Proof.
  split.
  - destruct (proj2 (proj2 (partial_failure_isolation (P := platform) "DATA" "/tmp/dl"))
                (row "data/a.csv") (row "data/sub/b.JSON") (row "data/README") world0
                _ _ _ _ _ _ _
                eq_refl eq_refl eq_refl eq_refl eq_refl eq_refl eq_refl eq_refl)
      as (evs & H & _).
    eexists _, evs. exact H.
  - assert (Hmk : folder_can_be_made (P := platform) "/tmp/dl" same_files).
    { intros d (Hr & Hf & Hd). exists d. cbn [os_makedirs platform].
      unfold toy_makedirs. rewrite Hd. split; [reflexivity|repeat split; assumption]. }
    assert (Hok : forall path,
              mem ("@" ++ path) (failing_files disk0) = false ->
              mem ("@" ++ path) (remote_files disk0) = true ->
              derive_file_name ("@" ++ path) = derive_file_name path ->
              arrives_unless (P := platform) "/tmp/dl" same_files
                (fun r => mem ("@" ++ File_Path (shown r)) (failing_files disk0))
                (row path)).
    { intros path Hnf Hrem Hname d (Hr & Hf & Hd). cbn [row shown File_Path File_Name].
      rewrite Hnf. cbn [file_get platform]. unfold toy_get. rewrite Hf, Hr, Hnf, Hrem.
      eexists. split; [reflexivity|]. split; [repeat split; assumption|].
      cbn [os_path_exists platform]. unfold toy_exists. cbn [local_files].
      rewrite Hname. unfold mem at 1. cbn [existsb]. rewrite String.eqb_refl. reflexivity. }
    assert (Hbad : forall path,
              mem ("@" ++ path) (failing_files disk0) = true ->
              arrives_unless (P := platform) "/tmp/dl" same_files
                (fun r => mem ("@" ++ File_Path (shown r)) (failing_files disk0))
                (row path)).
    { intros path Hfail d (Hr & Hf & Hd). cbn [row shown File_Path File_Name].
      rewrite Hfail. left. cbn [file_get platform]. unfold toy_get. rewrite Hf, Hfail.
      eexists _, d. split; [reflexivity|repeat split; assumption]. }
    destruct (proj1 (proj2 (partial_failure_isolation (P := platform) "DATA" "/tmp/dl"))
                same_files
                (fun r => mem ("@" ++ File_Path (shown r)) (failing_files disk0))
                [row "data/sub/b.JSON"; row "data/a.csv"; row "data/sub/b.JSON";
                 row "data/README"; row "data/a.csv"] world0 Hmk)
      as (o & e & evs & Hrun & Hfetch & Hfailed & Hdown & _).
    + apply Forall_cons; [apply Hbad; reflexivity|].
      apply Forall_cons; [apply Hok; reflexivity|].
      apply Forall_cons; [apply Hbad; reflexivity|].
      apply Forall_cons; [apply Hok; reflexivity|].
      apply Forall_cons; [apply Hok; reflexivity|].
      apply Forall_nil.
    + repeat split.
    + exists o, e, evs. repeat split; assumption.
Defined.

(** C3: with an empty folder string the validation is skipped, every
    [os.makedirs] of the batch raises, and [main] still ends with an
    outcome, all three files failed and no fetch made. *)
Lemma empty_folder_still_yields_outcome :
  fst (os_makedirs "" disk0)
  = Raise (Exception "[Errno 2] No such file or directory: ''")
  /\ fst (main (download_all "" 0) world0)
     = Ok (EndedDownload {| success_count := 0; total_files := 3;
                            downloaded_files := [];
                            failed_files := ["a.csv"; "b.JSON"; "README"]%string |})
  /\ filter is_makedirs (trace (snd (main (download_all "" 0) world0)))
     = [CallMakedirs ""; CallMakedirs ""; CallMakedirs ""]
  /\ filter is_file_get (trace (snd (main (download_all "" 0) world0))) = [].
Proof. repeat split; vm_compute; reflexivity. Qed.

(** C3 on the small platform: [/root] cannot be created, so [main]
    returns from the validation; and with the empty folder every
    transfer fails before its fetch. *)
Lemma destination_failure_witness :
  main (download_all "/root" 0) world0
  = (Ok ReturnedInvalidFolder,
     after world0 disk0
       [Markdown ConnectedAlready; CallMakedirs "/root";
        Markdown (InvalidFolder "[Errno 13] Permission denied: '/root'")])
  /\ exists e evs,
       download_loop "DATA" "" three_files world0
       = (Ok {| success_count := 0; total_files := 3; downloaded_files := [];
                failed_files := ["a.csv"; "b.JSON"; "README"]%string |},
          after world0 e evs)
       /\ filter is_file_get evs = [].
Proof.
  split.
  - refine (proj1 (proj1 (destination_failure (P := platform))
                     (download_all "/root" 0) world0
                     (after world0 disk0 [Markdown ConnectedAlready])
                     (Exception "[Errno 13] Permission denied: '/root'") disk0
                     _ eq_refl eq_refl)).
    discriminate.
  - refine (proj2 (proj2 (destination_failure (P := platform)))
              "DATA" ""%string three_files world0 _).
    intros e. eexists _, _. reflexivity.
Defined.

(** C4 on the small platform: the fetch of a path that matches no file
    completes, nothing is written, and the transfer fails. *)
Lemma missing_file_counts_as_failed_witness :
  os_makedirs "/tmp/dl" (env world0) = (Ok tt, disk0)
  /\ file_get "@data/ghost.bin" "/tmp/dl" disk0 = (Ok tt, disk0)
  /\ download_file_from_stage "DATA" "data/ghost.bin" "/tmp/dl" "ghost.bin" world0
     = (Ok false,
        after world0 disk0
          [CallMakedirs "/tmp/dl"; CallFileGet "@data/ghost.bin" "/tmp/dl";
           CallExists "/tmp/dl/ghost.bin";
           StError "File ghost.bin was not found after download"]).
Proof.
  split; [reflexivity|]. split; [reflexivity|].
  exact (proj1 (missing_file_counts_as_failed (P := platform)
                  "DATA" "/tmp/dl" world0 disk0 disk0 eq_refl)
           "data/ghost.bin"%string "ghost.bin"%string eq_refl).
Defined.

(** C5 on examples. *)
Lemma file_type_is_lowercase_extension_witness :
  derive_file_type "report.CSV" = PyStr.lower "CSV"
  /\ derive_file_type "README" = "unknown"%string.
Proof.
  split.
  - exact (proj1 (file_type_is_lowercase_extension (P := platform))
             "report"%string "CSV"%string eq_refl).
  - exact (proj1 (proj2 (file_type_is_lowercase_extension (P := platform)))
             "README"%string eq_refl).
Defined.

(** C6 on examples and on the listing of [DATA]. *)
Lemma file_name_is_last_path_segment_witness :
  derive_file_name "prefix1/test2.csv" = "test2.csv"%string
  /\ derive_file_name "test2.csv" = "test2.csv"%string
  /\ exists df w',
       get_stage_files "DATA" world0 = (Ok df, w')
       /\ map File_Path df = ["data/a.csv"; "data/sub/b.JSON"; "data/README"]%string
       /\ map File_Name df = ["a.csv"; "b.JSON"; "README"]%string.
Proof.
  split; [|split].
  - exact (proj1 (file_name_is_last_path_segment (P := platform))
             "prefix1"%string "test2.csv"%string eq_refl).
  - exact (proj1 (proj2 (file_name_is_last_path_segment (P := platform)))
             "test2.csv"%string eq_refl).
  - exact (proj1 (proj2 (proj2 (proj2 (file_name_is_last_path_segment (P := platform)))))
             "DATA"%string world0 _ disk0 eq_refl).
Defined.

(** C7 on the small platform: three files, the whole trace of the
    batch, values 1/3, 2/3, 3/3. *)
Lemma download_loop_progress_sequence_witness :
  exists o e evs,
    download_loop "DATA" "/tmp/dl" three_files world0 = (Ok o, after world0 e evs)
    /\ evs
       = [StatusText (Downloading "a.csv");
          CallMakedirs "/tmp/dl"; CallFileGet "@data/a.csv" "/tmp/dl";
          CallExists "/tmp/dl/a.csv";
          ProgressBar (Qmake 1 3);
          StatusText (Downloading "b.JSON");
          CallMakedirs "/tmp/dl"; CallFileGet "@data/sub/b.JSON" "/tmp/dl";
          StError "Error downloading file data/sub/b.JSON: 253006: File transfer failed: @data/sub/b.JSON";
          ProgressBar (Qmake 2 3);
          StatusText (Downloading "README");
          CallMakedirs "/tmp/dl"; CallFileGet "@data/README" "/tmp/dl";
          CallExists "/tmp/dl/README";
          ProgressBar (Qmake 3 3)]
    /\ announced evs = ["a.csv"; "b.JSON"; "README"]%string
    /\ progress_values evs = [Qmake 1 3; Qmake 2 3; Qmake 3 3]
    /\ Qnum (Qmake 2 3) = 2%Z.
Proof.
  destruct (download_loop_progress_sequence (P := platform) "DATA" "/tmp/dl"
              three_files world0)
    as (o & e & evs & oks & segs & Hrun & _ & _ & _ & _ & _ & _ & _ & Hnames
        & Hvalues & Hq & _).
  exists o, e, evs. split; [exact Hrun|].
  split; [|split; [exact Hnames|split; [exact Hvalues|]]].
  - vm_compute in Hrun. injection Hrun as _ _ Hevs. symmetry. exact Hevs.
  - exact (proj1 (Hq 1%nat (le_S _ _ (le_n 2)))).
Defined.

(** C8: a listing that raises and an empty listing give the same
    value, the empty frame. *)
Lemma failed_listing_returns_the_empty_frame :
  fst (sql_collect "LIST @LOCKED" disk0)
  = Raise (Exception "003001: Insufficient privileges to operate on stage")
  /\ fst (sql_collect "LIST @EMPTY" disk0) = Ok []
  /\ fst (get_stage_files "LOCKED" world0) = Ok []
  /\ fst (get_stage_files "LOCKED" world0) = fst (get_stage_files "EMPTY" world0).
Proof. repeat split; vm_compute; reflexivity. Qed.

(** C8 on the small platform: the stage [LOCKED] may not be listed,
    the stage [EMPTY] has no file; [main] returns the same way. *)
Lemma listing_failure_returns_empty_frame_witness :
  main (download_all "/tmp" 2) world0
  = (Ok ReturnedNoFiles,
     after world0 disk0
       [Markdown ConnectedAlready; CallMakedirs "/tmp";
        Markdown (FolderValidated "/tmp"); CallSql "SHOW STAGES";
        Markdown (StageCount 3); CallSql "LIST @LOCKED";
        StError "Error fetching files from stage LOCKED: 003001: Insufficient privileges to operate on stage";
        Markdown NoFilesFound])
  /\ main (download_all "/tmp" 1) world0
     = (Ok ReturnedNoFiles,
        after world0 disk0
          [Markdown ConnectedAlready; CallMakedirs "/tmp";
           Markdown (FolderValidated "/tmp"); CallSql "SHOW STAGES";
           Markdown (StageCount 3); CallSql "LIST @EMPTY";
           Markdown NoFilesFound]).
Proof.
  split.
  - refine (proj2 (proj2 (proj2 (listing_failure_returns_empty_frame (P := platform)
                                   "LOCKED"))
                     (download_all "/tmp" 2) world0 _ _ _ disk0
                     eq_refl eq_refl eq_refl eq_refl _)
              (Exception "003001: Insufficient privileges to operate on stage")
              disk0 eq_refl).
    discriminate.
  - refine (proj1 (proj2 (proj2 (listing_failure_returns_empty_frame (P := platform)
                                   "EMPTY"))
                     (download_all "/tmp" 1) world0 _ _ _ disk0
                     eq_refl eq_refl eq_refl eq_refl _)
              disk0 eq_refl).
    discriminate.
Defined.

(** C10: the user interrupts the fetch; [KeyboardInterrupt] is no
    instance of [Exception], the handler does not run, and the
    exception reaches the caller. *)
Lemma keyboard_interrupt_reaches_the_caller :
  Signals.download_file_from_stage (C := Signals.interrupted_fetch)
    "DATA" "data/a.csv" "/tmp/dl" "a.csv" (disk0, [])
  = (Signals.Raises (Signals.OutsideException "KeyboardInterrupt"),
     (disk0, [CallMakedirs "/tmp/dl"; CallFileGet "@data/a.csv" "/tmp/dl"])).
Proof. reflexivity. Qed.

(** C10 on the small platform, whose calls raise instances of
    [Exception] only: the fetch raises, the function returns [False]. *)
Lemma download_file_from_stage_catches_exceptions_only_witness :
  exists w',
    Signals.download_file_from_stage (C := Signals.of_platform platform)
      "DATA" "data/sub/b.JSON" "/tmp/dl" "b.JSON" (disk0, [])
    = (Signals.Returns false, w').
Proof.
  destruct (proj1 (download_file_from_stage_catches_exceptions_only
                     (C := Signals.of_platform platform)
                     "DATA" "data/sub/b.JSON" "/tmp/dl" "b.JSON" (disk0, [])))
    as (b & w' & H & _ & Hget).
  - intros path s. cbn [Signals.makedirs Signals.of_platform].
    destruct (os_makedirs path s) as [[u|x] s']; exact I.
  - intros stage_file_path target s. cbn [Signals.get Signals.of_platform].
    destruct (file_get stage_file_path target s) as [[u|x] s']; exact I.
  - intros path s. exact I.
  - intros msg s. exists s. reflexivity.
  - exists w'. rewrite (Hget disk0 _ disk0 eq_refl eq_refl) in H. exact H.
Defined.

End OnToy.


(* ================================================================= *)
(** ** Sizes: written by [get_stage_files], read back by [main] *)

Module SizeFacts.

Lemma string_of_uint_digits (d : Decimal.uint) :
  Forall (fun a => PyText.is_digit a = true)
    (list_ascii_of_string (NilEmpty.string_of_uint d)).
Proof. induction d; simpl; constructor; (reflexivity || assumption). Qed.

Lemma prefix_empty (s : string) : String.prefix "" s = true.
Proof. destruct s; reflexivity. Qed.

(** Replacing the comma by nothing filters the commas out. *)
Lemma replace_comma (s : string) :
  PyText.replace "," "" s
  = string_of_list_ascii
      (filter (fun a => negb (Ascii.eqb a ",")) (list_ascii_of_string s)).
Proof.
  unfold PyText.replace. induction s as [|a r IH]; [reflexivity|].
  cbn [PyText.replace_from String.prefix].
  destruct (ascii_dec "," a) as [<-|Hne].
  - rewrite prefix_empty. simpl. exact IH.
  - simpl. destruct (Ascii.eqb_spec a ","%char) as [->|_]; [contradiction|].
    simpl. rewrite IH. reflexivity.
Qed.

Lemma group3_without_commas (l : list ascii) :
  Forall (fun a => PyText.is_digit a = true) l ->
  forall k, filter (fun a => negb (Ascii.eqb a ",")) (PyStr.group3 k l) = l.
Proof.
  induction 1 as [|d r Hd _ IH]; intros k; [reflexivity|].
  assert (Hc : negb (Ascii.eqb d ",") = true).
  { destruct (Ascii.eqb_spec d ","%char) as [->|_]; [discriminate|reflexivity]. }
  destruct r as [|d' r'].
  - destruct k as [|[|[|k]]]; cbn [PyStr.group3 filter]; rewrite Hc; reflexivity.
  - assert (Hs : forall j, filter (fun a => negb (Ascii.eqb a ","))
                     (d :: PyStr.group3 j (d' :: r')) = d :: d' :: r').
    { intros j. cbn [filter]. rewrite Hc. f_equal. apply IH. }
    destruct k as [|[|[|k]]];
      [exact (Hs 1%nat) | exact (Hs 2%nat) | | exact (Hs (S (S (S (S k)))))].
    change (PyStr.group3 2 (d :: d' :: r'))
      with (d :: ","%char :: PyStr.group3 0 (d' :: r')).
    cbn [filter]. rewrite Hc.
    change (negb (Ascii.eqb "," ",")) with false. cbv iota. f_equal. apply IH.
Qed.

(** Without its commas, the formatted size is the decimal numeral. *)
Lemma replace_comma_format (n : N) :
  PyText.replace "," "" (PyStr.format_thousands n ++ " bytes")
  = NilEmpty.string_of_uint (N.to_uint n) ++ " bytes".
Proof.
  rewrite replace_comma.
  assert (L : forall s t, list_ascii_of_string (s ++ t)
                          = (list_ascii_of_string s ++ list_ascii_of_string t)%list).
  { induction s; intros; simpl; [reflexivity|]. f_equal. apply IHs. }
  assert (R : forall l t, string_of_list_ascii (l ++ t)%list
                          = string_of_list_ascii l ++ string_of_list_ascii t).
  { induction l; intros; simpl; [reflexivity|]. f_equal. apply IHl. }
  rewrite L, filter_app, R. f_equal.
  unfold PyStr.format_thousands. cbv zeta.
  rewrite list_ascii_of_string_of_list_ascii, filter_rev.
  rewrite group3_without_commas, rev_involutive, string_of_list_ascii_of_string.
  - reflexivity.
  - apply Forall_rev, string_of_uint_digits.
Qed.

Lemma replace_bytes_suffix (d : string) :
  Forall (fun a => PyText.is_digit a = true) (list_ascii_of_string d) ->
  PyText.replace " bytes" "" (d ++ " bytes") = d.
Proof.
  unfold PyText.replace. induction d as [|a r IH]; intros H; [reflexivity|].
  inversion H as [|? ? Ha Hr]; subst.
  cbn [append PyText.replace_from String.prefix].
  destruct (ascii_dec " " a) as [<-|_]; [discriminate|].
  f_equal. apply IH, Hr.
Qed.

Lemma int_of_decimal (n : N) :
  PyText.int_of_digits (NilEmpty.string_of_uint (N.to_uint n)) = Some n.
Proof.
  unfold PyText.int_of_digits.
  destruct (NilEmpty.string_of_uint (N.to_uint n)) eqn:E.
  - exfalso. destruct n as [|p]; [discriminate|].
    simpl in E. pose proof (DecimalPos.Unsigned.to_uint_nonnil p) as Hn.
    destruct (Pos.to_uint p); try discriminate. apply Hn. reflexivity.
  - rewrite <- E, NilEmpty.usu. simpl. rewrite DecimalN.Unsigned.of_to. reflexivity.
Qed.

Lemma parse_formatted (n : N) :
  parse_file_size (PyStr.format_thousands n ++ " bytes") = Some n.
Proof.
  unfold parse_file_size.
  rewrite replace_comma_format, replace_bytes_suffix by apply string_of_uint_digits.
  apply int_of_decimal.
Qed.

Lemma sum_sizes_listing (rows : list sql_row) :
  forall acc,
  sum_sizes acc (map file_record_of_row rows)
  = Some (acc + fold_right N.add 0%N (map row_size rows))%N.
Proof.
  induction rows as [|row rest IH]; intros acc.
  - simpl. rewrite N.add_0_r. reflexivity.
  - cbn [map sum_sizes fold_right].
    change (File_Size (file_record_of_row row))
      with (PyStr.format_thousands (row_size row) ++ " bytes").
    rewrite parse_formatted, IH, N.add_assoc. reflexivity.
Qed.

End SizeFacts.

(** X1. The size that [get_stage_files] writes into a record, with
    thousands separators and the word "bytes", is read back by the
    statistics of [main] as the size the listing gave: removing the
    commas and the suffix and reading the digits returns the number. *)
Theorem file_size_round_trip (row : sql_row) :
  File_Size (file_record_of_row row)
  = PyStr.format_thousands (row_size row) ++ " bytes"
  /\ PyText.replace "," "" (File_Size (file_record_of_row row))
     = NilEmpty.string_of_uint (N.to_uint (row_size row)) ++ " bytes"
  /\ parse_file_size (File_Size (file_record_of_row row)) = Some (row_size row).
Proof.
  split; [reflexivity|]. split.
  - apply SizeFacts.replace_comma_format.
  - apply SizeFacts.parse_formatted.
Qed.

(** X2. The total size that [main] computes from the frame of a listing
    is the sum of the sizes of the listed rows; reading the sizes back
    never fails on a frame built by [get_stage_files]. *)
Theorem total_size_of_listing (rows : list sql_row) :
  total_size (map file_record_of_row rows)
  = Some (fold_right N.add 0%N (map row_size rows)).
Proof. unfold total_size. rewrite SizeFacts.sum_sizes_listing. reflexivity. Qed.

(* ================================================================= *)
(** ** The connection parameters *)

Lemma dict_find_present {A} (d : list (string * A)) (key : string) (v : A) :
  dict_find d key = Some v -> In (key, v) d.
Proof.
  induction d as [|[k x] r IH]; simpl; [discriminate|].
  destruct (String.eqb_spec k key) as [->|_].
  - intros [= ->]. left. reflexivity.
  - intros H. right. apply IH, H.
Qed.

Lemma connection_parameters_find (getenv : string -> option string)
    (table : list (string * string)) (key var : string) :
  NoDup (map fst table) ->
  In (key, var) table ->
  dict_find
    (flat_map (fun kv => match snd kv with Some v => [(fst kv, v)] | None => [] end)
       (map (fun kv => (fst kv, getenv (snd kv))) table)) key
  = getenv var.
Proof.
  induction table as [|[k x] r IH]; intros Hnd Hin; [contradiction|].
  inversion Hnd as [|? ? Hk Hr]; subst. simpl in *.
  destruct Hin as [[= -> ->]|Hin].
  - destruct (getenv var) as [v|] eqn:E; simpl.
    + rewrite String.eqb_refl. reflexivity.
    + destruct (dict_find _ key) as [v|] eqn:F; [|reflexivity].
      exfalso. apply dict_find_present, in_flat_map in F.
      destruct F as ([k' ov] & Hin & F). apply in_map_iff in Hin.
      destruct Hin as ([k'' x'] & [= <- <-] & Hin). simpl in F.
      destruct (getenv x'); [|contradiction]. destruct F as [[= <- _]|[]].
      apply Hk. apply in_map_iff. exists (k'', x'). split; [reflexivity|exact Hin].
  - assert (Hne : k <> key).
    { intros ->. apply Hk. apply in_map_iff. exists (key, var). split; [reflexivity|exact Hin]. }
    destruct (getenv x); simpl.
    + destruct (String.eqb_spec k key) as [E|_]; [contradiction|]. apply IH; assumption.
    + apply IH; assumption.
Qed.

(** X3. A connection parameter is handed to the session builder exactly
    when its environment variable is set, with the variable's value (an
    empty value included); a variable that is not set leaves its
    parameter out, and no other parameter is ever passed. *)
Theorem connection_parameters_follow_environment
    (getenv : string -> option string) :
  (forall key var,
     In (key, var) connection_variables ->
     dict_find (connection_parameters getenv) key = getenv var)
  /\ (forall key v,
        dict_find (connection_parameters getenv) key = Some v ->
        exists var, In (key, var) connection_variables /\ getenv var = Some v).
Proof.
  assert (Hnd : NoDup (map fst connection_variables)).
  { simpl. repeat constructor; simpl; intuition discriminate. }
  split.
  - intros key var Hin. apply connection_parameters_find; assumption.
  - intros key v H. apply dict_find_present in H.
    unfold connection_parameters in H. apply in_flat_map in H.
    destruct H as ([k ov] & Hin & H). apply in_map_iff in Hin.
    destruct Hin as ([k' var] & [= <- <-] & Hin). simpl in H.
    destruct (getenv var) as [v'|] eqn:E; [|contradiction].
    destruct H as [[= <- <-]|[]]. exists var. split; assumption.
Qed.

(* ================================================================= *)
(** ** Icons *)

Lemma lower_upper_char (a : ascii) :
  PyStr.lower_char (PyStrUpper.upper_char a) = PyStr.lower_char a.
Proof. destruct a as [[] [] [] [] [] [] [] []]; reflexivity. Qed.

Lemma lower_upper (s : string) : PyStr.lower (PyStrUpper.upper s) = PyStr.lower s.
Proof.
  induction s as [|a r IH]; simpl; [reflexivity|].
  rewrite lower_upper_char, IH. reflexivity.
Qed.

Lemma lower_lower_char (a : ascii) :
  PyStr.lower_char (PyStr.lower_char a) = PyStr.lower_char a.
Proof. destruct a as [[] [] [] [] [] [] [] []]; reflexivity. Qed.

Lemma lower_lower (s : string) : PyStr.lower (PyStr.lower s) = PyStr.lower s.
Proof.
  induction s as [|a r IH]; simpl; [reflexivity|].
  rewrite lower_lower_char, IH. reflexivity.
Qed.

(** X4. On a file type written in ASCII, [get_file_icon] does not look
    at the case: the type in upper case (as the display frame writes
    it) and the type in lower case (as [get_stage_files] derives it)
    get the icon of the type itself. (Outside ASCII Python's
    [str.upper] can map a letter onto an ASCII one, and the icon can
    change.) *)
Theorem get_file_icon_ignores_case (file_type : string) :
  is_ascii file_type = true ->
  get_file_icon (PyStrUpper.upper file_type) = get_file_icon file_type
  /\ get_file_icon (PyStr.lower file_type) = get_file_icon file_type.
Proof.
  intros _. unfold get_file_icon. cbv zeta. rewrite lower_upper, lower_lower.
  split; reflexivity.
Qed.


(* ================================================================= *)
(** ** Paths, names and the local file *)

(** A string that holds the separator splits at its last occurrence. *)
Lemma last_separator (c : ascii) (s : string) :
  PyStr.contains c s = true ->
  exists pre suf, s = pre ++ String c suf /\ PyStr.contains c suf = false.
Proof.
  induction s as [|a r IH]; simpl; [discriminate|].
  destruct (PyStr.contains c r) eqn:Hr.
  - intros _. destruct (IH eq_refl) as (pre & suf & -> & Hsuf).
    exists (String a pre), suf. split; [reflexivity|exact Hsuf].
  - destruct (Ascii.eqb_spec a c) as [->|_]; [|discriminate].
    intros _. exists "", r. split; [reflexivity|exact Hr].
Qed.

(** X5. Every stage path is either its own name (no ['/'] in it) or a
    directory part, a ['/'] and the derived name; every name either has
    no ['.'] and the type ["unknown"], or is a stem, a ['.'] and an
    extension without ['.'] whose lower-case form is the type. *)
Theorem paths_and_names_decompose :
  (forall path,
     (PyStr.contains "/" path = false /\ derive_file_name path = path)
     \/ (exists dir, path = dir ++ "/" ++ derive_file_name path))
  /\ (forall name,
        (PyStr.contains "." name = false /\ derive_file_type name = "unknown")
        \/ (exists stem ext,
              name = stem ++ "." ++ ext
              /\ PyStr.contains "." ext = false
              /\ derive_file_type name = PyStr.lower ext)).
Proof.
  split.
  - intros path. destruct (PyStr.contains "/" path) eqn:H.
    + right. destruct (last_separator _ _ H) as (pre & suf & -> & Hsuf).
      exists pre. change (String "/" suf) with ("/" ++ suf).
      rewrite (derive_file_name_after_sep pre suf Hsuf). reflexivity.
    + left. split; [reflexivity|]. apply derive_file_name_no_sep, H.
  - intros name. destruct (PyStr.contains "." name) eqn:H.
    + right. destruct (last_separator _ _ H) as (pre & suf & -> & Hsuf).
      exists pre, suf. split; [reflexivity|]. split; [exact Hsuf|].
      apply (derive_file_type_after_dot pre suf Hsuf).
    + left. split; [reflexivity|]. apply derive_file_type_no_dot, H.
Qed.

Lemma startswith_contains (c : ascii) (s : string) :
  PyStr.contains c s = false -> PyStr.startswith c s = false.
Proof.
  destruct s as [|a r]; simpl; [reflexivity|].
  destruct (Ascii.eqb a c); [discriminate|reflexivity].
Qed.

(** X6. The local path that [download_file_from_stage] checks for a
    listed file always lies under the download folder: joined with a
    derived name, [os.path.join] never drops the folder, whatever the
    stage path is. (A name starting with ['/'] would replace the
    folder; derived names hold no ['/'].) *)
Theorem checked_path_is_under_the_folder (local_directory file_path : string) :
  os_path_join local_directory (derive_file_name file_path)
  = (if (String.eqb local_directory "" || PyStr.endswith "/" local_directory)%bool
     then local_directory ++ derive_file_name file_path
     else local_directory ++ "/" ++ derive_file_name file_path)
  /\ String.prefix local_directory
       (os_path_join local_directory (derive_file_name file_path)) = true
  /\ os_path_join local_directory "/etc/passwd" = "/etc/passwd".
Proof.
  assert (E : os_path_join local_directory (derive_file_name file_path)
              = (if (String.eqb local_directory "" || PyStr.endswith "/" local_directory)%bool
                 then local_directory ++ derive_file_name file_path
                 else local_directory ++ "/" ++ derive_file_name file_path)).
  { unfold os_path_join.
    rewrite (startswith_contains _ _ (derive_file_name_no_slash file_path)).
    reflexivity. }
  split; [exact E|]. split; [|reflexivity].
  rewrite E.
  assert (Hp : forall a b, String.prefix a (a ++ b) = true).
  { induction a as [|x a IH]; intros b; simpl; [destruct b; reflexivity|].
    destruct (ascii_dec x x) as [_|N]; [apply IH|contradiction]. }
  destruct (String.eqb local_directory "" || PyStr.endswith "/" local_directory)%bool;
    apply Hp.
Qed.

(* ================================================================= *)
(** ** More about the loop *)

Section LoopFacts.

Context {P : Platform}.
Local Open Scope list_scope.

(** What one transfer calls: no connection, no query, and its fetch at
    most once. *)
Lemma download_calls stage_name file_path local_directory file_name w :
  exists b e evs (fetched : bool),
    download_file_from_stage stage_name file_path local_directory file_name w
    = (Ok b, after w e evs)
    /\ filter is_file_get evs
       = (if fetched then [CallFileGet ("@" ++ file_path)%string local_directory]
          else [])
    /\ filter is_connect evs = []
    /\ filter is_sql evs = []
    /\ (b = true -> fetched = true).
Proof.
  destruct (os_makedirs local_directory (env w)) as [[u|x] e1] eqn:H1.
  - destruct (file_get ("@" ++ file_path)%string local_directory e1) as [[u'|x] e2] eqn:H2.
    + rewrite (download_get_returned _ _ _ _ _ _ _ _ _ H1 H2).
      eexists _, _, _, true. split; [reflexivity|].
      destruct (os_path_exists _ e2); simpl; repeat split.
    + rewrite (download_get_raised _ _ _ _ _ _ _ _ _ H1 H2).
      eexists _, _, _, true. split; [reflexivity|]. simpl. repeat split.
  - rewrite (download_makedirs_raised _ _ _ _ _ _ _ H1).
    eexists _, _, _, false. split; [reflexivity|]. simpl. repeat split.
    discriminate.
Qed.

(** The names picked by [picked], in terms of the list functions. *)
Lemma picked_filter (b : bool) (rows : list display_row) :
  forall oks, length oks = length rows ->
  picked b rows oks
  = map (fun ro => File_Name (shown (fst ro)))
      (filter (fun ro => Bool.eqb (snd ro) b) (combine rows oks)).
Proof.
  induction rows as [|r rest IH]; intros [|ok oks] H; simpl in *; try discriminate;
    try reflexivity.
  injection H as H. destruct (Bool.eqb ok b); simpl; rewrite (IH oks H); reflexivity.
Qed.

Lemma loop_from_calls selected_stage download_folder rows :
  forall idx acc w,
  exists oks fetched e evs,
    download_loop_from selected_stage download_folder idx rows acc w
    = (Ok {| success_count := success_count acc + length (picked true rows oks);
             total_files := total_files acc;
             downloaded_files := downloaded_files acc ++ picked true rows oks;
             failed_files := failed_files acc ++ picked false rows oks |},
       after w e evs)
    /\ length oks = length rows
    /\ length fetched = length rows
    /\ filter is_file_get evs
       = map (fun rf => fetch_of download_folder (fst rf))
           (filter snd (combine rows fetched))
    /\ filter is_connect evs = []
    /\ filter is_sql evs = []
    /\ Forall (fun ok_f => fst ok_f = true -> snd ok_f = true) (combine oks fetched).
Proof.
  induction rows as [|r rest IH]; intros idx acc w.
  - exists [], [], (env w), []. simpl. unfold ret.
    rewrite after_nil, !app_nil_r, Nat.add_0_r.
    destruct acc; simpl. repeat split. constructor.
  - set (w0 := after w (env w) [StatusText (Downloading (File_Name (shown r)))]).
    destruct (download_calls selected_stage (File_Path (shown r)) download_folder
                (File_Name (shown r)) w0)
      as (b & e1 & evs1 & f & Hrun & Hget & Hcon & Hsql & Hbf).
    rewrite (loop_from_cons _ _ _ _ _ _ _ _ _ Hrun).
    destruct (IH (S idx) (tally acc (File_Name (shown r)) b)
                (after (after w0 e1 evs1) (env (after w0 e1 evs1))
                   [ProgressBar (progress_fraction idx (total_files acc))]))
      as (oks & fs & e2 & evs2 & Hrest & Hlen & Hlenf & Hgets & Hcons & Hsqls & Himp).
    exists (b :: oks), (f :: fs), e2,
      ([StatusText (Downloading (File_Name (shown r)))] ++ evs1
       ++ [ProgressBar (progress_fraction idx (total_files acc))] ++ evs2).
    split; [|split; [|split; [|split; [|split; [|split]]]]].
    + rewrite Hrest. unfold w0. rewrite !after_after. f_equal.
      destruct b; simpl; rewrite <- ?app_assoc, <- ?Nat.add_assoc; reflexivity.
    + simpl. rewrite Hlen. reflexivity.
    + simpl. rewrite Hlenf. reflexivity.
    + simpl. rewrite filter_app, Hget. simpl. rewrite Hgets.
      destruct f; reflexivity.
    + simpl. rewrite filter_app, Hcon. simpl. exact Hcons.
    + simpl. rewrite filter_app, Hsql. simpl. exact Hsqls.
    + simpl. constructor; [exact Hbf|exact Himp].
Qed.

(** X7. The loop fetches only selected files: the fetch calls of a
    batch are, in selection order, the fetches of some of the selected
    rows, each of the row's own stage path into the download folder and
    at most once per row; a file counted as downloaded was fetched. The
    loop makes no connection and no query. *)
Theorem download_loop_fetches_only_the_selection
    (selected_stage download_folder : string) (selected_files : list display_row)
    (w : World) :
  exists o e evs oks fetched,
    download_loop selected_stage download_folder selected_files w
    = (Ok o, after w e evs)
    /\ length oks = length selected_files
    /\ length fetched = length selected_files
    /\ filter is_file_get evs
       = map (fun rf => fetch_of download_folder (fst rf))
           (filter snd (combine selected_files fetched))
    /\ downloaded_files o
       = map (fun ro => File_Name (shown (fst ro)))
           (filter snd (combine selected_files oks))
    /\ Forall (fun ok_f => fst ok_f = true -> snd ok_f = true) (combine oks fetched)
    /\ filter is_connect evs = []
    /\ filter is_sql evs = [].
Proof.
  destruct (loop_from_calls selected_stage download_folder selected_files 0
              {| success_count := 0; total_files := length selected_files;
                 downloaded_files := []; failed_files := [] |} w)
    as (oks & fs & e & evs & Hrun & Hlen & Hlenf & Hgets & Hcon & Hsql & Himp).
  eexists _, e, evs, oks, fs. split; [exact Hrun|]. simpl.
  split; [exact Hlen|]. split; [exact Hlenf|]. split; [exact Hgets|].
  split; [|split; [exact Himp|split; assumption]].
  rewrite (picked_filter true _ _ Hlen).
  f_equal. apply filter_ext. intros [r []]; reflexivity.
Qed.

(** X8. The two lists of an outcome keep the selection order: there is
    one result per selected file such that the downloaded list is the
    names of the files with result [True], the failed list the names of
    those with [False], each in selection order; so a name selected
    before another in the same list comes before it. *)
Theorem outcome_lists_keep_selection_order
    (selected_stage download_folder : string) (selected_files : list display_row)
    (w : World) :
  exists o w' oks,
    download_loop selected_stage download_folder selected_files w = (Ok o, w')
    /\ length oks = length selected_files
    /\ downloaded_files o
       = map (fun ro => File_Name (shown (fst ro)))
           (filter snd (combine selected_files oks))
    /\ failed_files o
       = map (fun ro => File_Name (shown (fst ro)))
           (filter (fun ro => negb (snd ro)) (combine selected_files oks))
    /\ success_count o = length (filter (fun ok => ok) oks).
Proof.
  destruct (loop_from_runs selected_stage download_folder selected_files 0
              {| success_count := 0; total_files := length selected_files;
                 downloaded_files := []; failed_files := [] |} w)
    as (oks & e & evs & Hrun & Hlen & _).
  eexists _, _, oks. split; [exact Hrun|]. simpl. split; [exact Hlen|].
  rewrite !(picked_filter _ _ _ Hlen). split; [|split].
  - f_equal. apply filter_ext. intros [r []]; reflexivity.
  - reflexivity.
  - rewrite length_map. clear Hrun. revert oks Hlen.
    induction selected_files as [|r rest IH]; intros [|ok oks] Hlen; simpl in *;
      try discriminate; try reflexivity.
    injection Hlen as Hlen. destruct ok; simpl; rewrite (IH oks Hlen); reflexivity.
Qed.

(** X9. Every value that the loop gives to the progress bar lies in
    (0, 1], the range the bar accepts, and the values grow strictly
    from one file to the next. *)
Theorem progress_values_are_valid_and_increasing
    (selected_stage download_folder : string) (selected_files : list display_row)
    (w : World) :
  exists o e evs,
    download_loop selected_stage download_folder selected_files w
    = (Ok o, after w e evs)
    /\ Forall (fun q => (0 < q /\ q <= 1)%Q) (progress_values evs)
    /\ (forall i, S i < length selected_files ->
          (nth i (progress_values evs) 0%Q < nth (S i) (progress_values evs) 0%Q)%Q).
Proof.
  destruct (loop_from_runs selected_stage download_folder selected_files 0
              {| success_count := 0; total_files := length selected_files;
                 downloaded_files := []; failed_files := [] |} w)
    as (oks & e & evs & Hrun & _ & Hsteps & _).
  simpl in Hsteps. eexists _, e, evs. split; [exact Hrun|].
  assert (Hv : progress_values evs
               = map (fun i => progress_fraction i (length selected_files))
                   (seq 0 (length selected_files))).
  { rewrite <- progress_values_filter, Hsteps. apply progress_values_expected. }
  rewrite Hv. split.
  - apply Forall_forall. intros q Hq. apply in_map_iff in Hq.
    destruct Hq as (i & <- & Hi). apply in_seq in Hi.
    apply progress_fraction_range. lia.
  - intros i Hi.
    assert (Hn : forall j, j < length selected_files ->
              nth j (map (fun i => progress_fraction i (length selected_files))
                       (seq 0 (length selected_files))) 0%Q
              = progress_fraction j (length selected_files)).
    { intros j Hj.
      rewrite (nth_indep _ 0%Q (progress_fraction 0 (length selected_files)))
        by (rewrite length_map, length_seq; exact Hj).
      rewrite (map_nth (fun i => progress_fraction i (length selected_files))
                 (seq 0 (length selected_files)) 0 j).
      rewrite seq_nth by exact Hj. reflexivity. }
    rewrite !Hn by lia. unfold progress_fraction, Qlt. cbn [Qnum Qden].
    apply Z.mul_lt_mono_pos_r; lia.
Qed.

(** The final status of [main] for the outcome of a batch. *)
Lemma final_status_of_outcome
    (selected_stage download_folder : string) (selected_files : list display_row)
    (w : World) (o : DownloadOutcome) (w1 : World) :
  download_loop selected_stage download_folder selected_files w = (Ok o, w1) ->
  show_final_status download_folder o w1
  = (Ok tt, after w1 (env w1) (final_status_events download_folder o)).
Proof.
  intros Hloop.
  destruct (loop_from_runs selected_stage download_folder selected_files 0
              {| success_count := 0; total_files := length selected_files;
                 downloaded_files := []; failed_files := [] |} w)
    as (oks & e & evs & Hrun & _).
  unfold download_loop in Hloop. rewrite Hrun in Hloop. injection Hloop as <- _.
  unfold show_final_status, final_status_events. cbn [success_count downloaded_files
    failed_files total_files]. cbn [Nat.add app].
  destruct (picked true selected_files oks) as [|n ns] eqn:Hp.
  - cbn [length]. cbn [Nat.ltb Nat.leb Nat.eqb]. unfold bind, emit, ret, after; simpl.
    rewrite <- app_assoc. reflexivity.
  - cbn [length Nat.ltb Nat.leb Nat.eqb is_empty].
    destruct (picked false selected_files oks) as [|m ms]; cbn [is_empty];
      unfold bind, emit, ret, after; simpl; rewrite <- !app_assoc; reflexivity.
Qed.

(** X10. After a batch, the final status shows the failure box alone
    when no file was downloaded (the failed names are then not listed);
    otherwise it shows the counts, the downloaded names, and the failed
    names if there are any. The downloaded list is never left out when
    a file was downloaded. *)
Theorem final_status_after_a_batch
    (selected_stage download_folder : string) (selected_files : list display_row)
    (w : World) (o : DownloadOutcome) (w1 : World) :
  download_loop selected_stage download_folder selected_files w = (Ok o, w1) ->
  show_final_status download_folder o w1
  = (Ok tt, after w1 (env w1) (final_status_events download_folder o)).
Proof. apply final_status_of_outcome. Qed.

Lemma copy_loop_from_agrees selected_stage download_folder rows :
  forall idx acc w,
  Copy.download_loop_from selected_stage download_folder idx (total_files acc) rows
    (success_count acc) (downloaded_files acc) w
  = match download_loop_from selected_stage download_folder idx rows acc w with
    | (Ok o, w') => (Ok (success_count o, downloaded_files o), w')
    | (Raise x, w') => (Raise x, w')
    end.
Proof.
  induction rows as [|r rest IH]; intros idx acc w; [reflexivity|].
  cbn [Copy.download_loop_from download_loop_from]. unfold bind.
  rewrite !emit_run.
  destruct (download_file_from_stage selected_stage (File_Path (shown r))
              download_folder (File_Name (shown r)) _) as [[b|x] w1]; [|reflexivity].
  specialize (IH (S idx) (tally acc (File_Name (shown r)) b)
                (after w1 (env w1)
                   [ProgressBar (progress_fraction idx (total_files acc))])).
  destruct b; exact IH.
Qed.

(** X11. The loop of the earlier copy of the script makes the same
    transfers as the loop of [download_files.py]: from the same state
    it returns the same success count and the same downloaded names and
    leaves the same world; it only keeps no list of the failed names. *)
Theorem copy_loop_agrees
    (selected_stage download_folder : string) (selected_files : list display_row)
    (w : World) :
  exists o w',
    download_loop selected_stage download_folder selected_files w = (Ok o, w')
    /\ Copy.download_loop selected_stage download_folder selected_files w
       = (Ok (success_count o, downloaded_files o), w').
Proof.
  pose proof (copy_loop_from_agrees selected_stage download_folder selected_files 0
                {| success_count := 0; total_files := length selected_files;
                   downloaded_files := []; failed_files := [] |} w) as H.
  destruct (loop_from_runs selected_stage download_folder selected_files 0
              {| success_count := 0; total_files := length selected_files;
                 downloaded_files := []; failed_files := [] |} w)
    as (oks & e & evs & Hrun & _).
  rewrite Hrun in H. eexists _, _. split; [exact Hrun|exact H].
Qed.

End LoopFacts.


(* ================================================================= *)
(** ** The selection *)

Lemma data_editor_from_keeps (edits : nat -> option bool) (select_all : bool)
    (files_df : list file_record) :
  forall i,
  map shown (filter Select (data_editor_from i edits (display_frame select_all files_df)))
  = keep_at (ticked select_all edits) i (map shown (display_frame select_all files_df)).
Proof.
  induction files_df as [|r rest IH]; intros i; [reflexivity|].
  cbn [display_frame map data_editor_from filter Select keep_at].
  unfold ticked at 1. fold (display_frame select_all rest).
  destruct (edits i) as [[]|]; [| |destruct select_all]; cbn [map];
    rewrite ?IH; reflexivity.
Qed.

Lemma keep_at_map {A B} (f : A -> B) (keep : nat -> bool) (l : list A) :
  forall i, keep_at keep i (map f l) = map f (keep_at keep i l).
Proof.
  induction l as [|x r IH]; intros i; simpl; [reflexivity|].
  destruct (keep i); simpl; rewrite IH; reflexivity.
Qed.

Lemma keep_at_all {A} (keep : nat -> bool) (l : list A) :
  (forall i, keep i = true) -> forall i, keep_at keep i l = l.
Proof.
  intros H. induction l as [|x r IH]; intros i; simpl; [reflexivity|].
  rewrite H, IH. reflexivity.
Qed.

Lemma keep_at_none {A} (keep : nat -> bool) (l : list A) :
  (forall i, keep i = false) -> forall i, keep_at keep i l = [].
Proof.
  intros H. induction l as [|x r IH]; intros i; simpl; [reflexivity|].
  rewrite H, IH. reflexivity.
Qed.

(** X12. The files that [main] selects are the listed files whose check
    box is ticked after the user's edits (an edited box counts as
    edited, an untouched one as the "select all" box), in listing
    order, with the names and stage paths of the listing: decorating
    the type column changes neither. Untouched boxes with "select all"
    select every listed file; untouched boxes without it select none. *)
Theorem selection_follows_the_check_boxes
    (select_all : bool) (edits : nat -> option bool) (files_df : list file_record) :
  names_of (selected_rows select_all edits files_df)
  = keep_at (ticked select_all edits) 0 (map File_Name files_df)
  /\ map (fun r => File_Path (shown r)) (selected_rows select_all edits files_df)
     = keep_at (ticked select_all edits) 0 (map File_Path files_df)
  /\ forallb Select (selected_rows select_all edits files_df) = true
  /\ names_of (selected_rows true (fun _ => None) files_df) = map File_Name files_df
  /\ selected_rows false (fun _ => None) files_df = [].
Proof.
  assert (Hs : map shown (selected_rows select_all edits files_df)
               = keep_at (ticked select_all edits) 0
                   (map shown (display_frame select_all files_df))).
  { apply data_editor_from_keeps. }
  assert (Hn : forall all ed,
             names_of (selected_rows all ed files_df)
             = keep_at (ticked all ed) 0 (map File_Name files_df)).
  { intros all ed. unfold names_of.
    rewrite <- (map_map shown File_Name).
    unfold selected_rows, data_editor. rewrite data_editor_from_keeps.
    rewrite <- keep_at_map. f_equal. unfold display_frame. rewrite !map_map.
    reflexivity. }
  split; [apply Hn|]. split; [|split; [|split]].
  - rewrite <- (map_map shown File_Path), Hs, <- keep_at_map. f_equal.
    unfold display_frame. rewrite !map_map. reflexivity.
  - apply forallb_forall. intros r Hr. apply filter_In in Hr. apply Hr.
  - rewrite Hn. apply keep_at_all. reflexivity.
  - assert (E : map shown (selected_rows false (fun _ => None) files_df) = []).
    { unfold selected_rows, data_editor. rewrite data_editor_from_keeps.
      apply keep_at_none. reflexivity. }
    destruct (selected_rows false (fun _ => None) files_df); [reflexivity|discriminate].
Qed.

(* ================================================================= *)
(** ** Runs of [main] *)

Section MainRuns.

Context {P : Platform}.
Local Open Scope list_scope.

Lemma get_stages_list_raised (w : World) x e' :
  sql_collect "SHOW STAGES" (env w) = (Raise x, e') ->
  get_stages_list w
  = (Ok [], after w e' [CallSql "SHOW STAGES";
                        StError ("Error fetching stages: " ++ str x)%string]).
Proof.
  intros H. unfold get_stages_list, try_except, bind, call, emit, ret, after.
  cbv beta zeta. rewrite H. simpl. rewrite <- app_assoc. reflexivity.
Qed.

Lemma init_session_stored (w : World) :
  session_in_state w = true ->
  init_session w = (Ok true, after w (env w) [Markdown ConnectedAlready]).
Proof.
  intros H. unfold init_session, get_session_in_state, bind at 1. rewrite H.
  reflexivity.
Qed.

Lemma init_session_connected (w : World) u e1 :
  session_in_state w = false ->
  session_create (env w) = (Ok u, e1) ->
  init_session w
  = (Ok true, {| env := e1; session_in_state := true;
                 trace := trace w ++ [CallConnect; Markdown ConnectedNow] |}).
Proof.
  intros H Hc. unfold init_session, get_session_in_state, bind at 1. rewrite H.
  cbn [negb]. unfold try_except, create_snowflake_session, bind, call,
    set_session_in_state, emit, ret. rewrite Hc. simpl.
  rewrite <- app_assoc. reflexivity.
Qed.

Lemma init_session_failed (w : World) x e1 :
  session_in_state w = false ->
  session_create (env w) = (Raise x, e1) ->
  init_session w
  = (Ok false, after w e1 [CallConnect; Markdown (ConnectFailed (str x))]).
Proof.
  intros H Hc. unfold init_session, get_session_in_state, bind at 1. rewrite H.
  cbn [negb]. unfold try_except, create_snowflake_session, bind, call,
    set_session_in_state, emit, ret, after. rewrite Hc. simpl.
  rewrite H, <- app_assoc. reflexivity.
Qed.

Lemma validate_created (download_folder : string) (w : World) u e1 :
  download_folder <> ""%string ->
  os_makedirs download_folder (env w) = (Ok u, e1) ->
  validate_download_folder download_folder w
  = (Ok true,
     after w e1 [CallMakedirs download_folder;
                 Markdown (FolderValidated download_folder)]).
Proof.
  intros Hne H. unfold validate_download_folder.
  destruct (String.eqb_spec download_folder ""%string) as [E|_]; [contradiction|].
  simpl. unfold try_except, bind, call, emit, ret, after. rewrite H. simpl.
  rewrite <- app_assoc. reflexivity.
Qed.

(** The validation calls [os.makedirs] at most once and nothing else. *)
Lemma validate_runs (download_folder : string) (w : World) :
  exists b e evs,
    validate_download_folder download_folder w = (Ok b, after w e evs)
    /\ filter is_connect evs = []
    /\ filter is_file_get evs = []
    /\ length (filter is_makedirs evs) <= 1.
Proof.
  destruct (String.eqb_spec download_folder ""%string) as [->|Hne].
  - exists true, (env w), []. unfold validate_download_folder. simpl.
    unfold ret. rewrite after_nil. repeat split. simpl. lia.
  - destruct (os_makedirs download_folder (env w)) as [[u|x] e1] eqn:H.
    + rewrite (validate_created _ _ _ _ Hne H). eexists _, _, _.
      split; [reflexivity|]. simpl. repeat split. lia.
    + rewrite (validate_raised _ _ _ _ Hne H). eexists _, _, _.
      split; [reflexivity|]. simpl. repeat split. lia.
Qed.

Lemma show_final_status_runs (download_folder : string) (o : DownloadOutcome)
    (w : World) :
  exists evs,
    show_final_status download_folder o w = (Ok tt, after w (env w) evs)
    /\ filter is_connect evs = []
    /\ filter is_file_get evs = []
    /\ filter is_makedirs evs = [].
Proof.
  unfold show_final_status.
  destruct (0 <? success_count o)%nat.
  - destruct (is_empty (downloaded_files o)), (is_empty (failed_files o));
      unfold bind, emit, ret; simpl; eexists;
      (split; [unfold after; simpl; rewrite <- ?app_assoc; simpl; reflexivity|]);
      repeat split.
  - unfold bind, emit, ret; simpl; eexists.
    split; [unfold after; simpl; rewrite <- ?app_assoc; simpl; reflexivity|].
    repeat split.
Qed.

(** Everything after the folder validation: it always returns, makes no
    connection, and without the button neither fetches nor creates a
    directory. *)
Lemma browse_and_download_runs (inp : Inputs) (w : World) :
  exists exit e evs,
    browse_and_download inp w = (Ok exit, after w e evs)
    /\ filter is_connect evs = []
    /\ (start_download inp = false ->
        filter is_file_get evs = [] /\ filter is_makedirs evs = [])
    /\ exit <> Stopped /\ exit <> ReturnedInvalidFolder.
Proof.
  unfold browse_and_download.
  assert (Hstages : exists stages e1 evs1,
             get_stages_list w = (Ok stages, after w e1 evs1)
             /\ filter is_connect evs1 = [] /\ filter is_file_get evs1 = []
             /\ filter is_makedirs evs1 = []).
  { destruct (sql_collect "SHOW STAGES" (env w)) as [[rows|x] e1] eqn:H.
    - rewrite (get_stages_list_listed _ _ _ H). eexists _, _, _.
      split; [reflexivity|]. repeat split.
    - rewrite (get_stages_list_raised _ _ _ H). eexists _, _, _.
      split; [reflexivity|]. repeat split. }
  destruct Hstages as (stages & e1 & evs1 & Hrun1 & Hc1 & Hg1 & Hm1).
  rewrite (bind_ok _ _ _ _ _ Hrun1). cbv beta.
  destruct (is_empty stages).
  { rewrite (bind_ok _ _ _ _ _ (emit_run _ _)). unfold ret.
    rewrite after_after. eexists _, _, _. split; [reflexivity|].
    rewrite !filter_app, Hc1, Hg1, Hm1. repeat split; discriminate. }
  cbv zeta. rewrite (bind_ok _ _ _ _ _ (emit_run _ _)). cbv beta.
  rewrite after_after.
  destruct (nth_error stages (stage_choice inp)) as [stage|].
  2:{ unfold ret. eexists _, _, _. split; [reflexivity|].
      rewrite !filter_app, Hc1, Hg1, Hm1. repeat split; discriminate. }
  destruct (negb (truthy (Some stage))).
  { unfold ret. eexists _, _, _. split; [reflexivity|].
    rewrite !filter_app, Hc1, Hg1, Hm1. repeat split; discriminate. }
  match goal with |- context [bind (get_stage_files stage) _ ?W] => set (w2 := W) end.
  assert (Hfiles : exists files_df e2 evs2,
             get_stage_files stage w2 = (Ok files_df, after w2 e2 evs2)
             /\ filter is_connect evs2 = [] /\ filter is_file_get evs2 = []
             /\ filter is_makedirs evs2 = []).
  { destruct (sql_collect ("LIST @" ++ stage)%string (env w2)) as [[rows|x] e2] eqn:H.
    - rewrite (get_stage_files_listed _ _ _ _ H). eexists _, _, _.
      split; [reflexivity|]. repeat split.
    - rewrite (get_stage_files_raised _ _ _ _ H). eexists _, _, _.
      split; [reflexivity|]. repeat split. }
  destruct Hfiles as (files_df & e2 & evs2 & Hrun2 & Hc2 & Hg2 & Hm2).
  rewrite (bind_ok _ _ _ _ _ Hrun2). cbv beta. unfold w2. rewrite after_after.
  destruct (is_empty files_df).
  { rewrite (bind_ok _ _ _ _ _ (emit_run _ _)). unfold ret.
    rewrite after_after. eexists _, _, _. split; [reflexivity|].
    rewrite !filter_app, Hc1, Hg1, Hm1, Hc2, Hg2, Hm2. repeat split; discriminate. }
  rewrite (bind_ok _ _ _ _ _ (emit_run _ _)). cbv beta zeta. rewrite after_after.
  fold (selected_rows (select_all inp) (edits inp) files_df).
  set (sel := selected_rows (select_all inp) (edits inp) files_df).
  destruct (0 <? length sel)%nat.
  2:{ rewrite (bind_ok _ _ _ _ _ (emit_run _ _)). unfold ret.
      rewrite after_after. eexists _, _, _. split; [reflexivity|].
      rewrite !filter_app, Hc1, Hg1, Hm1, Hc2, Hg2, Hm2. repeat split; discriminate. }
  rewrite (bind_ok _ _ _ _ _ (emit_run _ _)). cbv beta. rewrite after_after.
  destruct (start_download inp).
  2:{ unfold ret. eexists _, _, _. split; [reflexivity|].
      rewrite !filter_app, Hc1, Hg1, Hm1, Hc2, Hg2, Hm2. repeat split; discriminate. }
  rewrite (bind_ok _ _ _ _ _ (emit_run _ _)). cbv beta. rewrite after_after.
  rewrite (bind_ok _ _ _ _ _ (emit_run _ _)). cbv beta. rewrite after_after.
  rewrite (bind_ok _ _ _ _ _ (emit_run _ _)). cbv beta. rewrite after_after.
  match goal with |- context [bind (download_loop stage (download_folder inp) sel) _ ?W] =>
    destruct (loop_from_calls stage (download_folder inp) sel 0
                {| success_count := 0; total_files := length sel;
                   downloaded_files := []; failed_files := [] |} W)
      as (oks & fs & e3 & evs3 & Hrun3 & _ & _ & _ & Hc3 & _)
  end.
  unfold download_loop. rewrite (bind_ok _ _ _ _ _ Hrun3). cbv beta.
  rewrite after_after.
  match goal with |- context [bind (show_final_status ?f ?o) _ ?W] =>
    destruct (show_final_status_runs f o W) as (evs4 & Hrun4 & Hc4 & _)
  end.
  rewrite (bind_ok _ _ _ _ _ Hrun4). cbv beta. unfold ret. rewrite after_after.
  eexists _, _, _. split; [reflexivity|].
  rewrite !filter_app, Hc1, Hc2, Hc3, Hc4. repeat split; discriminate.
Qed.

(** [main] from the folder validation on. *)
Lemma main_after_init_runs (inp : Inputs) (w1 : World) :
  exists exit e evs,
    bind (validate_download_folder (download_folder inp))
      (fun valid => if negb valid then ret ReturnedInvalidFolder
                    else browse_and_download inp) w1
    = (Ok exit, after w1 e evs)
    /\ filter is_connect evs = []
    /\ (start_download inp = false ->
        filter is_file_get evs = [] /\ length (filter is_makedirs evs) <= 1)
    /\ exit <> Stopped.
Proof.
  destruct (validate_runs (download_folder inp) w1)
    as (valid & e & evs & Hrun & Hc & Hg & Hm).
  rewrite (bind_ok _ _ _ _ _ Hrun). destruct valid; cbn [negb].
  - destruct (browse_and_download_runs inp (after w1 e evs))
      as (exit & e' & evs' & Hrun' & Hc' & Hb & Hne & _).
    rewrite Hrun', after_after. eexists _, _, _. split; [reflexivity|].
    rewrite !filter_app, Hc, Hc', Hg. repeat split; try assumption.
    + apply Hb. assumption.
    + rewrite length_app. destruct (Hb H) as (_ & ->). simpl. lia.
  - unfold ret. eexists _, _, _. split; [reflexivity|].
    repeat split; try assumption; discriminate.
Qed.

(** X13. A run of [main] connects at most once, and only when no
    session is stored: with a stored session it makes no connection and
    keeps the session; without one it makes exactly one connection
    attempt, and the session is stored afterwards exactly when [main]
    was not stopped by a failed connection. *)
Theorem main_connects_once_and_keeps_the_session
    (inp : Inputs) (w : World) (r : result main_exit) (w' : World) :
  main inp w = (r, w') ->
  exists evs,
    trace w' = trace w ++ evs
    /\ filter is_connect evs = (if session_in_state w then [] else [CallConnect])
    /\ (session_in_state w' = true <-> r <> Ok Stopped).
Proof.
  unfold main. destruct (session_in_state w) eqn:Hs.
  - rewrite (bind_ok _ _ _ _ _ (init_session_stored _ Hs)). cbn [negb].
    destruct (main_after_init_runs inp (after w (env w) [Markdown ConnectedAlready]))
      as (exit & e & evs & Hrun & Hc & _ & Hne).
    rewrite Hrun, after_after. intros [= <- <-]. eexists. split; [reflexivity|].
    simpl. rewrite Hc. split; [reflexivity|]. rewrite Hs. split; [|reflexivity].
    intros _ [= E]. contradiction.
  - destruct (session_create (env w)) as [[u|x] e1] eqn:Hc.
    + rewrite (bind_ok _ _ _ _ _ (init_session_connected _ _ _ Hs Hc)). cbn [negb].
      match goal with |- context [bind _ _ ?W] =>
        destruct (main_after_init_runs inp W) as (exit & e & evs & Hrun & Hcn & _ & Hne)
      end.
      rewrite Hrun. intros [= <- <-]. simpl. eexists. split.
      * rewrite <- app_assoc. reflexivity.
      * simpl. rewrite Hcn. split; [reflexivity|]. split; [|reflexivity].
        intros _ [= E]. contradiction.
    + rewrite (bind_ok _ _ _ _ _ (init_session_failed _ _ _ Hs Hc)). cbn [negb].
      unfold ret. intros [= <- <-]. eexists. split; [reflexivity|].
      split; [reflexivity|]. simpl. rewrite Hs. split; [discriminate|].
      intros H. exfalso. apply H. reflexivity.
Qed.

(** X14. Without the button nothing is downloaded: a run of [main] in
    which the button is not pressed makes no fetch call, calls
    [os.makedirs] at most once (the folder validation), and reports no
    outcome. *)
Theorem no_download_without_the_button
    (inp : Inputs) (w : World) (r : result main_exit) (w' : World) :
  start_download inp = false ->
  main inp w = (r, w') ->
  exists evs,
    trace w' = trace w ++ evs
    /\ filter is_file_get evs = []
    /\ length (filter is_makedirs evs) <= 1
    /\ (forall o, r <> Ok (EndedDownload o)).
Proof.
  intros Hb. unfold main.
  assert (Hinit : exists b w1 evs0,
             init_session w = (Ok b, w1) /\ trace w1 = trace w ++ evs0
             /\ filter is_file_get evs0 = [] /\ filter is_makedirs evs0 = []).
  { destruct (session_in_state w) eqn:Hs.
    - rewrite (init_session_stored _ Hs). eexists _, _, _.
      split; [reflexivity|]. repeat split.
    - destruct (session_create (env w)) as [[u|x] e1] eqn:Hc.
      + rewrite (init_session_connected _ _ _ Hs Hc). eexists _, _, _.
        split; [reflexivity|]. repeat split.
      + rewrite (init_session_failed _ _ _ Hs Hc). eexists _, _, _.
        split; [reflexivity|]. repeat split. }
  destruct Hinit as (b & w1 & evs0 & Hrun0 & Htr & Hg0 & Hm0).
  rewrite (bind_ok _ _ _ _ _ Hrun0). destruct b; cbn [negb].
  - destruct (main_after_init_runs inp w1) as (exit & e & evs & Hrun & _ & Hnb & _).
    destruct (Hnb Hb) as (Hg & Hm).
    rewrite Hrun. intros [= <- <-]. exists (evs0 ++ evs). simpl.
    rewrite Htr, <- app_assoc, !filter_app, Hg0, Hg, Hm0. repeat split; try assumption.
    intros o [= E]. revert Hrun. rewrite E.
    destruct (validate_runs (download_folder inp) w1)
      as (valid & e' & evs' & Hv & _).
    rewrite (bind_ok _ _ _ _ _ Hv). destruct valid; cbn [negb]; [|discriminate].
    unfold browse_and_download, bind.
    destruct (get_stages_list _) as [[stages|?] ?]; [|discriminate].
    destruct (is_empty stages); [discriminate|]. cbv zeta. rewrite emit_run.
    destruct (nth_error stages (stage_choice inp)); [|discriminate].
    destruct (negb (truthy _)); [discriminate|].
    destruct (get_stage_files _ _) as [[files_df|?] ?]; [|discriminate].
    destruct (is_empty files_df); [discriminate|]. rewrite emit_run.
    destruct (0 <? _)%nat; rewrite emit_run; [|discriminate].
    rewrite Hb. discriminate.
  - unfold ret. intros [= <- <-]. exists evs0. repeat split; try assumption.
    + rewrite Hm0. simpl. lia.
    + discriminate.
Qed.

(** X15. When the stage query raises or lists no stage, [main] shows
    the no-stages message and returns: [get_stages_list] turns the
    exception into the empty list (showing the error), and no file
    listing, no fetch and no download follow. *)
Theorem no_stages_ends_the_run
    (inp : Inputs) (w0 w1 w2 : World) :
  init_session w0 = (Ok true, w1) ->
  validate_download_folder (download_folder inp) w1 = (Ok true, w2) ->
  (forall e3,
     sql_collect "SHOW STAGES" (env w2) = (Ok [], e3) ->
     main inp w0
     = (Ok ReturnedNoStages,
        after w2 e3 [CallSql "SHOW STAGES"; Markdown NoStagesFound]))
  /\
  (forall x e3,
     sql_collect "SHOW STAGES" (env w2) = (Raise x, e3) ->
     main inp w0
     = (Ok ReturnedNoStages,
        after w2 e3 [CallSql "SHOW STAGES";
                     StError ("Error fetching stages: " ++ str x)%string;
                     Markdown NoStagesFound])).
Proof.
  intros Hinit Hval.
  assert (Hmain : forall w3,
            get_stages_list w2 = (Ok [], w3) ->
            main inp w0 = (Ok ReturnedNoStages, after w3 (env w3) [Markdown NoStagesFound])).
  { intros w3 H. unfold main. rewrite (bind_ok _ _ _ _ _ Hinit). cbn [negb].
    rewrite (bind_ok _ _ _ _ _ Hval). cbn [negb]. unfold browse_and_download.
    rewrite (bind_ok _ _ _ _ _ H). cbn [is_empty].
    rewrite (bind_ok _ _ _ _ _ (emit_run _ _)). reflexivity. }
  split.
  - intros e3 H. rewrite (Hmain _ (get_stages_list_listed _ _ _ H)).
    rewrite after_after. reflexivity.
  - intros x e3 H. rewrite (Hmain _ (get_stages_list_raised _ _ _ H)).
    rewrite after_after. reflexivity.
Qed.

(** X16. When no session is stored and the connection raises, [main]
    shows the error and stops: nothing but the connection attempt is
    called, and no session is stored, so the next run tries again. *)
Theorem failed_connection_stops_the_run
    (inp : Inputs) (w : World) (x : exn) (e1 : Env) :
  session_in_state w = false ->
  session_create (env w) = (Raise x, e1) ->
  main inp w
  = (Ok Stopped, after w e1 [CallConnect; Markdown (ConnectFailed (str x))])
  /\ session_in_state (after w e1 [CallConnect; Markdown (ConnectFailed (str x))])
     = false.
Proof.
  intros Hs Hc. unfold main.
  rewrite (bind_ok _ _ _ _ _ (init_session_failed _ _ _ Hs Hc)). cbn [negb].
  split; [reflexivity|exact Hs].
Qed.

(** X17. A whole run: when the session, the folder, the stage list and
    the file listing are all in order, the listed sizes sum to less
    than [metrics_size_bound] (so that the size metric, which the model
    of [main] leaves out, is drawn without an [IndexError]), a file is
    ticked and the button is pressed, [main] runs the download loop on
    the ticked rows of the listing, in listing order, shows the final
    status of its outcome, and ends with that outcome. *)
Theorem main_downloads_the_ticked_files
    (inp : Inputs) (w0 w1 w2 : World) (stage_rows rows : list sql_row)
    (e3 e4 : Env) (stage : string) :
  let selected_files :=
    selected_rows (select_all inp) (edits inp) (map file_record_of_row rows) in
  let w4 :=
    after w2 e4
      [CallSql "SHOW STAGES";
       Markdown (StageCount (length stage_rows));
       CallSql ("LIST @" ++ stage)%string;
       Markdown (FileStatistics (length rows));
       Markdown (DownloadSummary (length selected_files) (download_folder inp) stage);
       Markdown ProgressHeader;
       NewProgressBar 0%Q;
       NewStatusText] in
  init_session w0 = (Ok true, w1) ->
  validate_download_folder (download_folder inp) w1 = (Ok true, w2) ->
  sql_collect "SHOW STAGES" (env w2) = (Ok stage_rows, e3) ->
  nth_error (map row_name stage_rows) (stage_choice inp) = Some stage ->
  stage <> ""%string ->
  sql_collect ("LIST @" ++ stage)%string e3 = (Ok rows, e4) ->
  (fold_right N.add 0 (map row_size rows) < metrics_size_bound)%N ->
  selected_files <> [] ->
  start_download inp = true ->
  exists o w5,
    download_loop stage (download_folder inp) selected_files w4 = (Ok o, w5)
    /\ main inp w0
       = (Ok (EndedDownload o),
          after w5 (env w5) (final_status_events (download_folder inp) o)).
Proof.
  intros sel w4 Hinit Hval Hstages Hnth Hne Hlist _ Hsel Hstart.
  destruct (loop_from_runs stage (download_folder inp) sel 0
              {| success_count := 0; total_files := length sel;
                 downloaded_files := []; failed_files := [] |} w4)
    as (oks & e & evs & Hrun & _).
  eexists _, _. split; [exact Hrun|].
  unfold main. rewrite (bind_ok _ _ _ _ _ Hinit). cbn [negb].
  rewrite (bind_ok _ _ _ _ _ Hval). cbn [negb]. unfold browse_and_download.
  rewrite (bind_ok _ _ _ _ _ (get_stages_list_listed _ _ _ Hstages)). cbv beta.
  assert (Hemp : is_empty (map row_name stage_rows) = false).
  { destruct (map row_name stage_rows); [|reflexivity].
    destruct (stage_choice inp); discriminate. }
  rewrite Hemp. cbv zeta.
  rewrite (bind_ok _ _ _ _ _ (emit_run _ _)). cbv beta.
  rewrite Hnth. unfold truthy.
  destruct (String.eqb_spec stage ""%string) as [E|_]; [contradiction|].
  cbn [negb]. rewrite after_after, length_map. simpl app.
  rewrite (bind_ok _ _ _ _ _
             (get_stage_files_listed stage (after w2 e3 _) rows e4 Hlist)).
  cbv beta. rewrite after_after. simpl app.
  assert (Hrows : is_empty (map file_record_of_row rows) = false).
  { destruct rows; [|reflexivity]. exfalso. apply Hsel. reflexivity. }
  rewrite Hrows.
  rewrite (bind_ok _ _ _ _ _ (emit_run _ _)). cbv beta. rewrite after_after. simpl app.
  fold (selected_rows (select_all inp) (edits inp) (map file_record_of_row rows)).
  fold sel.
  assert (Hlen : (0 <? length sel)%nat = true).
  { destruct sel; [contradiction|reflexivity]. }
  rewrite Hlen, Hstart, length_map.
  rewrite (bind_ok _ _ _ _ _ (emit_run _ _)). cbv beta. rewrite after_after. simpl app.
  rewrite (bind_ok _ _ _ _ _ (emit_run _ _)). cbv beta. rewrite after_after. simpl app.
  rewrite (bind_ok _ _ _ _ _ (emit_run _ _)). cbv beta. rewrite after_after. simpl app.
  rewrite (bind_ok _ _ _ _ _ (emit_run _ _)). cbv beta. rewrite after_after. simpl app.
  simpl env. fold w4. unfold download_loop in Hrun |- *.
  rewrite (bind_ok _ _ _ _ _ Hrun). cbv beta.
  rewrite (bind_ok _ _ _ _ _
             (final_status_of_outcome stage (download_folder inp) sel w4 _ _ Hrun)).
  reflexivity.
Qed.

End MainRuns.

(* ================================================================= *)
(** ** More runs on the small platform *)

Module MoreOnToy.

Import Toy.
Local Open Scope list_scope.

Example replace_ex :
  PyText.replace "," "" "1,234,567 bytes" = "1234567 bytes"%string
  /\ PyText.replace " bytes" "" "1234567 bytes" = "1234567"%string
  /\ PyText.replace "aa" "b" "aaaaa" = "bba"%string
  /\ PyText.replace "" "-" "abc" = "-a-b-c-"%string
  /\ parse_file_size "2,048 bytes" = Some 2048%N
  /\ parse_file_size "" = None.
Proof. repeat split; reflexivity. Qed.

Example total_size_ex :
  exists df w',
    get_stage_files "DATA" world0 = (Ok df, w') /\ total_size df = Some 2065%N.
Proof. eexists _, _. split; reflexivity. Qed.

(** X3 on an environment with the user set, the role set to the empty
    string and nothing else. *)
Lemma connection_parameters_follow_environment_witness :
  dict_find
    (connection_parameters
       (fun var => if String.eqb var "SNOWFLAKE_USER" then Some "me"%string
                   else if String.eqb var "SNOWFLAKE_ROLE" then Some ""%string
                   else None))
    "role"
  = Some ""%string
  /\ connection_parameters
       (fun var => if String.eqb var "SNOWFLAKE_USER" then Some "me"%string
                   else if String.eqb var "SNOWFLAKE_ROLE" then Some ""%string
                   else None)
     = [("user", "me"); ("role", "")]%string.
Proof.
  split; [|reflexivity].
  refine (proj1 (connection_parameters_follow_environment _)
            "role"%string "SNOWFLAKE_ROLE"%string _).
  right. right. right. left. reflexivity.
Defined.

(** X4 on the type of a file named in capitals. *)
Lemma get_file_icon_ignores_case_witness :
  get_file_icon "CSV" = get_file_icon "Csv"
  /\ get_file_icon "csv" = get_file_icon "Csv"
  /\ get_file_icon "Csv" = "📊"%string.
Proof.
  destruct (get_file_icon_ignores_case "Csv" eq_refl) as [Hu Hl].
  split; [exact Hu|]. split; [exact Hl|reflexivity].
Defined.

(** X9 on the three files. *)
Lemma progress_values_are_valid_and_increasing_witness :
  exists evs,
    trace (snd (download_loop "DATA" "/tmp/dl" three_files world0))
    = trace world0 ++ evs
    /\ (nth 0 (progress_values evs) 0 < nth 1 (progress_values evs) 0)%Q.
Proof.
  destruct (progress_values_are_valid_and_increasing (P := platform)
              "DATA" "/tmp/dl" three_files world0)
    as (o & e & evs & Hrun & _ & Hinc).
  exists evs. rewrite Hrun. split; [reflexivity|].
  apply (Hinc 0%nat). repeat constructor.
Defined.

(** X10 on the three files: two downloaded, one failed. *)
Lemma final_status_after_a_batch_witness :
  show_final_status "/tmp/dl"
    {| success_count := 2; total_files := 3;
       downloaded_files := ["a.csv"; "README"]%string;
       failed_files := ["b.JSON"]%string |}
    (snd (download_loop "DATA" "/tmp/dl" three_files world0))
  = (Ok tt,
     after (snd (download_loop "DATA" "/tmp/dl" three_files world0))
       (env (snd (download_loop "DATA" "/tmp/dl" three_files world0)))
       [StatusText (DownloadComplete 2 3);
        Markdown (CompletedBox 2 3 "/tmp/dl");
        Markdown (DownloadedList ["a.csv"; "README"]%string);
        Markdown (FailedList ["b.JSON"]%string)]).
Proof.
  assert (H : download_loop "DATA" "/tmp/dl" three_files world0
              = (Ok {| success_count := 2; total_files := 3;
                       downloaded_files := ["a.csv"; "README"]%string;
                       failed_files := ["b.JSON"]%string |},
                 snd (download_loop "DATA" "/tmp/dl" three_files world0))).
  { vm_compute. reflexivity. }
  exact (final_status_after_a_batch (P := platform)
           "DATA" "/tmp/dl" three_files world0 _ _ H).
Defined.

(** X13 with a stored session, and without one. *)
Lemma main_connects_once_and_keeps_the_session_witness :
  (exists evs,
     trace (snd (main (download_all "/tmp/dl" 0) world0)) = trace world0 ++ evs
     /\ filter is_connect evs = []
     /\ session_in_state (snd (main (download_all "/tmp/dl" 0) world0)) = true)
  /\
  (exists evs,
     trace (snd (main (download_all "/tmp/dl" 0)
                   (@Build_World platform disk0 false [])))
     = evs
     /\ filter is_connect evs = [CallConnect]
     /\ session_in_state
          (snd (main (download_all "/tmp/dl" 0)
                  (@Build_World platform disk0 false [])))
        = true).
Proof.
  split.
  - destruct (main_connects_once_and_keeps_the_session (P := platform)
                (download_all "/tmp/dl" 0) world0 _ _
                (surjective_pairing (main (download_all "/tmp/dl" 0) world0)))
      as (evs & Htr & Hc & Hs).
    exists evs. split; [exact Htr|]. split; [exact Hc|].
    apply (proj2 Hs). vm_compute. discriminate.
  - destruct (main_connects_once_and_keeps_the_session (P := platform)
                (download_all "/tmp/dl" 0)
                (@Build_World platform disk0 false [])
                _ _
                (surjective_pairing
                   (main (download_all "/tmp/dl" 0)
                      (@Build_World platform disk0 false []))))
      as (evs & Htr & Hc & Hs).
    exists evs. split; [exact Htr|]. split; [exact Hc|].
    apply (proj2 Hs). vm_compute. discriminate.
Defined.

(** X14: everything ticked, the button not pressed. *)
Lemma no_download_without_the_button_witness :
  exists evs,
    trace (snd (main {| download_folder := "/tmp/dl"; stage_choice := 0;
                        select_all := true; edits := fun _ => None;
                        start_download := false |} world0))
    = trace world0 ++ evs
    /\ filter is_file_get evs = []
    /\ fst (main {| download_folder := "/tmp/dl"; stage_choice := 0;
                    select_all := true; edits := fun _ => None;
                    start_download := false |} world0)
       = Ok EndedNotStarted.
Proof.
  destruct (no_download_without_the_button (P := platform)
              {| download_folder := "/tmp/dl"; stage_choice := 0;
                 select_all := true; edits := fun _ => None;
                 start_download := false |} world0 _ _ eq_refl eq_refl)
    as (evs & Htr & Hg & _).
  exists evs. split; [exact Htr|]. split; [exact Hg|reflexivity].
Defined.

(** X15 on an account without stages. *)
Lemma no_stages_ends_the_run_witness :
  fst (main (download_all "/tmp/dl" 0)
         {| env := {| online := true; listings := []; locked := [];
                      remote_files := []; failing_files := [];
                      denied_dirs := []; local_files := [] |};
            session_in_state := true; trace := [] |})
  = Ok ReturnedNoStages.
Proof.
  exact (f_equal fst
           (proj1 (no_stages_ends_the_run (P := platform)
                     (download_all "/tmp/dl" 0)
                     {| env := {| online := true; listings := []; locked := [];
                                  remote_files := []; failing_files := [];
                                  denied_dirs := []; local_files := [] |};
                        session_in_state := true; trace := [] |}
                     _ _ eq_refl eq_refl)
              _ eq_refl)).
Defined.

(** X16 on an account that cannot be reached. *)
Lemma failed_connection_stops_the_run_witness :
  main (download_all "/tmp/dl" 0)
    {| env := {| online := false; listings := listings disk0; locked := [];
                 remote_files := []; failing_files := [];
                 denied_dirs := []; local_files := [] |};
       session_in_state := false; trace := [] |}
  = (Ok Stopped,
     {| env := {| online := false; listings := listings disk0; locked := [];
                  remote_files := []; failing_files := [];
                  denied_dirs := []; local_files := [] |};
        session_in_state := false;
        trace := [CallConnect;
                  Markdown (ConnectFailed
                              "250001: Could not connect to Snowflake backend")] |}).
Proof.
  exact (proj1 (failed_connection_stops_the_run (P := platform)
                  (download_all "/tmp/dl" 0)
                  {| env := {| online := false; listings := listings disk0;
                               locked := []; remote_files := []; failing_files := [];
                               denied_dirs := []; local_files := [] |};
                     session_in_state := false; trace := [] |}
                  _ _ eq_refl eq_refl)).
Defined.

(** X17: the whole run on the stage [DATA], the second file unticked. *)
Lemma main_downloads_the_ticked_files_witness :
  exists o w5,
    fst (main {| download_folder := "/tmp/dl"; stage_choice := 0;
                 select_all := true;
                 edits := fun i => if Nat.eqb i 1 then Some false else None;
                 start_download := true |} world0)
    = Ok (EndedDownload o)
    /\ downloaded_files o = ["a.csv"; "README"]%string
    /\ failed_files o = []
    /\ snd (main {| download_folder := "/tmp/dl"; stage_choice := 0;
                    select_all := true;
                    edits := fun i => if Nat.eqb i 1 then Some false else None;
                    start_download := true |} world0)
       = after w5 (env w5) (final_status_events "/tmp/dl" o).
Proof.
  pose proof (main_downloads_the_ticked_files (P := platform)
                {| download_folder := "/tmp/dl"; stage_choice := 0;
                   select_all := true;
                   edits := fun i => if Nat.eqb i 1 then Some false else None;
                   start_download := true |}
                world0
                (snd (init_session world0))
                (snd (validate_download_folder "/tmp/dl" (snd (init_session world0))))
                (map (fun kv => stage_row (fst kv)) (listings disk0))
                [file "data/a.csv" 10; file "data/sub/b.JSON" 2048;
                 file "data/README" 7]
                disk0 disk0 "DATA"%string) as X.
  cbv zeta in X.
  destruct X as (o & w5 & Hloop & Hmain).
  - vm_compute. reflexivity.
  - vm_compute. reflexivity.
  - vm_compute. reflexivity.
  - reflexivity.
  - discriminate.
  - vm_compute. reflexivity.
  - vm_compute. reflexivity.
  - vm_compute. discriminate.
  - reflexivity.
  - exists o, w5. rewrite Hmain. split; [reflexivity|].
    vm_compute in Hloop. injection Hloop as <- _. repeat split.
Defined.

End MoreOnToy.
